(** * The dependency pre-bundling plugin (esbuildDepPlugin.ts)

    A shallow embedding of [packages/vite/src/node/optimizer/esbuildDepPlugin.ts]:
    the resolve and load callbacks the plugin registers with the bundler, the
    two helper closures [resolve] and [resolveResult], and the proxy module
    text built for every pre-bundled entry.

    Strings are [string]; the two lookup tables [qualified] and [exportsData]
    (JavaScript objects used as maps) are [gmap string _]; asynchronous
    callbacks run in a small monad that logs every call to the underlying
    resolver and carries a possible rejection. A string holds the UTF-8
    bytes of the JavaScript string. The tables are plain objects: [in] also
    answers for the names inherited from [Object.prototype]. *)

From Stdlib Require Import String Ascii List Bool Arith Lia.
From stdpp Require Import base option gmap strings.

Import ListNotations.

(** ** Strings as JavaScript uses them *)

Module Str.

(** The double quote and the line feed, written by character code. *)
Definition dq : string := String "034"%char "".
Definition nl : string := String "010"%char "".

(** [s.startsWith(p)] *)
Definition startsWith (s p : string) : bool := String.prefix p s.

(** [s.slice(n)] for a non-negative [n]. *)
Fixpoint slice (n : nat) (s : string) : string :=
  match n, s with
  | O, _ => s
  | S _, EmptyString => EmptyString
  | S n', String _ s' => slice n' s'
  end.

(** [s.includes(p)] *)
Fixpoint includes (s p : string) : bool :=
  String.prefix p s ||
  match s with
  | EmptyString => false
  | String _ s' => includes s' p
  end.

(** A string is truthy when it is not empty. *)
Definition truthy (s : string) : bool := negb (String.eqb s "").

(** [xs.includes(x)] on an array of strings. *)
Definition mem (x : string) (xs : list string) : bool :=
  existsb (String.eqb x) xs.

End Str.

(** ** Regular expressions of the event filters

    Only what the three filters of the plugin use: character classes,
    sequence, alternation, repetition, and whether the pattern is tied to the
    start or to the end of the specifier. Matching is by derivatives. *)

Module RegExp.

Inductive t : Type :=
| Void
| Eps
| Class (f : ascii -> bool)
| Seq (r1 r2 : t)
| Or (r1 r2 : t)
| Many (r : t).

Fixpoint nullable (r : t) : bool :=
  match r with
  | Void => false
  | Eps => true
  | Class _ => false
  | Seq r1 r2 => nullable r1 && nullable r2
  | Or r1 r2 => nullable r1 || nullable r2
  | Many _ => true
  end.

Definition seq (r1 r2 : t) : t :=
  match r1, r2 with
  | Void, _ => Void
  | _, Void => Void
  | Eps, _ => r2
  | _, _ => Seq r1 r2
  end.

Definition or (r1 r2 : t) : t :=
  match r1, r2 with
  | Void, _ => r2
  | _, Void => r1
  | _, _ => Or r1 r2
  end.

Fixpoint deriv (c : ascii) (r : t) : t :=
  match r with
  | Void => Void
  | Eps => Void
  | Class f => if f c then Eps else Void
  | Seq r1 r2 =>
      if nullable r1
      then or (seq (deriv c r1) r2) (deriv c r2)
      else seq (deriv c r1) r2
  | Or r1 r2 => or (deriv c r1) (deriv c r2)
  | Many r1 => seq (deriv c r1) (Many r1)
  end.

(** The whole of [s] is a word of [r]. *)
Fixpoint matches (r : t) (s : string) : bool :=
  match s with
  | EmptyString => nullable r
  | String c s' => matches (deriv c r) s'
  end.

Definition chr (c : ascii) : t := Class (Ascii.eqb c).

Fixpoint lit (s : string) : t :=
  match s with
  | EmptyString => Eps
  | String c s' => Seq (chr c) (lit s')
  end.

Definition opt (r : t) : t := Or Eps r.

Definition anyOf (rs : list t) : t := fold_right Or Void rs.

(** Any character at all. *)
Definition any : t := Class (fun _ => true).

(** [.]: one character that is no line terminator: not LF, not CR, not
    U+2028 and not U+2029, whose UTF-8 bytes are E2 80 A8 and E2 80 A9. The
    other characters that start with the byte E2 are read as a whole; the
    bytes of every other character pass one by one. *)
Definition dot : t :=
  Or (Class (fun c => negb (Ascii.eqb c "010") && negb (Ascii.eqb c "013") &&
                      negb (Ascii.eqb c "226")))
     (Seq (chr "226")
        (Or (Seq (Class (fun c => negb (Ascii.eqb c "128"))) any)
            (Seq (chr "128")
                 (Class (fun c => negb (Ascii.eqb c "168") &&
                                  negb (Ascii.eqb c "169")))))).

Definition between (lo hi : nat) (c : ascii) : bool :=
  (lo <=? nat_of_ascii c) && (nat_of_ascii c <=? hi).

(** [\w] *)
Definition word (c : ascii) : bool :=
  between 97 122 c || between 65 90 c || between 48 57 c || Ascii.eqb c "_".

(** One alternative of the extension group, read from its source text: the
    entries are literal but for a postfix [?] (as in [jpe?g]). This is what
    the regular expression built from the entry means when the entry is
    [plain]; an entry with other operators of the syntax is outside it. *)
Fixpoint fragment (s : string) : t :=
  match s with
  | EmptyString => Eps
  | String c (String "?" rest) => Seq (opt (chr c)) (fragment rest)
  | String c rest => Seq (chr c) (fragment rest)
  end.

(** An entry made of word characters, each followed by at most one [?]. *)
Fixpoint plain (s : string) : bool :=
  match s with
  | EmptyString => true
  | String c (String "?" rest) => word c && plain rest
  | String c rest => word c && plain rest
  end.

(** A pattern with its anchors; [test] is [RegExp.prototype.test]. *)
Record pattern : Type := Pattern {
  atStart : bool;
  body : t;
  atEnd : bool
}.

Definition test (p : pattern) (s : string) : bool :=
  matches
    (Seq (if atStart p then Eps else Many any)
         (Seq (body p) (if atEnd p then Eps else Many any)))
    s.

(** The words of a regular expression. *)
Inductive lang : t -> string -> Prop :=
| lang_Eps : lang Eps ""
| lang_Class f c : f c = true -> lang (Class f) (String c "")
| lang_Seq r1 r2 s1 s2 :
    lang r1 s1 -> lang r2 s2 -> lang (Seq r1 r2) (s1 +:+ s2)
| lang_OrL r1 r2 s : lang r1 s -> lang (Or r1 r2) s
| lang_OrR r1 r2 s : lang r2 s -> lang (Or r1 r2) s
| lang_ManyNil r : lang (Many r) ""
| lang_ManyCons r s1 s2 :
    lang r s1 -> lang (Many r) s2 -> lang (Many r) (s1 +:+ s2).

End RegExp.

(** ** Outcomes of callbacks *)

Inductive Err : Type :=
| TypeError (msg : string)
| Rejected (reason : string).

Inductive Outcome (A : Type) : Type :=
| Ok (a : A)
| Throw (e : Err).

Arguments Ok {A} a.
Arguments Throw {A} e.

Definition obind {A B : Type} (o : Outcome A) (k : A -> Outcome B) : Outcome B :=
  match o with
  | Ok a => k a
  | Throw e => Throw e
  end.

(** ** Plain objects used as tables *)

Module Obj.

(** The names every plain object inherits from [Object.prototype]. *)
Definition inherited : list string :=
  [ "constructor"; "__defineGetter__"; "__defineSetter__"; "hasOwnProperty";
    "__lookupGetter__"; "__lookupSetter__"; "isPrototypeOf";
    "propertyIsEnumerable"; "toString"; "valueOf"; "__proto__";
    "toLocaleString" ].

(** What reading a property of a table of strings gives: the string stored
    under an own key, or the inherited member of that name, which is no
    string. *)
Inductive value : Type :=
| Text (s : string)
| Member (name : string).

(** [key in table] *)
Definition has {V : Type} (table : gmap string V) (key : string) : bool :=
  match table !! key with
  | Some _ => true
  | None => Str.mem key inherited
  end.

(** [table[key]]; [None] is [undefined]. *)
Definition get (table : gmap string string) (key : string) : option value :=
  match table !! key with
  | Some s => Some (Text s)
  | None => if Str.mem key inherited then Some (Member key) else None
  end.

End Obj.

(** ** The underlying resolver and the log of its calls *)

(** The plugin creates two resolvers from the configuration: the default one,
    which prefers ESM, and the one for [require]. *)
Inductive Which : Type := Esm | Require.

(** [resolver(id, importer, aliasOnly, ssr)]: a promise of a path or of
    [undefined], which may also be rejected. *)
Definition ResolveFn : Type :=
  string -> option Obj.value -> option bool -> option bool ->
  Outcome (option string).

Record Call : Type := MkCall {
  call_which : Which;
  call_id : string;
  call_importer : option Obj.value;
  call_aliasOnly : option bool;
  call_ssr : option bool
}.

(** An asynchronous computation: the resolver calls it made, in order, and how
    it ended. *)
Definition Task (A : Type) : Type := (list Call * Outcome A)%type.

Definition ret {A : Type} (a : A) : Task A := ([], Ok a).

Definition bind {A B : Type} (m : Task A) (k : A -> Task B) : Task B :=
  match m with
  | (log, Ok a) => let '(log', r) := k a in (log ++ log', r)
  | (log, Throw e) => (log, Throw e)
  end.

#[global] Instance Task_ret : MRet Task := @ret.
#[global] Instance Task_bind : MBind Task := fun A B k m => bind m k.

Definition calls {A : Type} (m : Task A) : list Call := fst m.
Definition outcome {A : Type} (m : Task A) : Outcome A := snd m.

(** ** Data of the bundler's plugin interface *)

Inductive ImportKind : Type :=
| EntryPoint
| ImportStatement
| RequireCall
| DynamicImport
| RequireResolve
| ImportRule
| UrlToken.

Definition ImportKind_string (k : ImportKind) : string :=
  match k with
  | EntryPoint => "entry-point"
  | ImportStatement => "import-statement"
  | RequireCall => "require-call"
  | DynamicImport => "dynamic-import"
  | RequireResolve => "require-resolve"
  | ImportRule => "import-rule"
  | UrlToken => "url-token"
  end.

Module OnResolveArgs.
Record t : Type := Make {
  path : string;
  importer : string;
  namespace : string;
  resolveDir : string;
  kind : ImportKind
}.
End OnResolveArgs.

Module OnResolveResult.
(** [external] absent is [false]; [namespace] absent is [None]. *)
Record t : Type := Make {
  path : string;
  external : bool;
  namespace : option string
}.
End OnResolveResult.

Module OnLoadArgs.
Record t : Type := Make {
  path : string;
  namespace : string
}.
End OnLoadArgs.

Module OnLoadResult.
Record t : Type := Make {
  contents : string;
  loader : option string;
  resolveDir : option string
}.
End OnLoadResult.

(** The shapes of a resolve result the plugin produces. *)
Definition External (p : string) : OnResolveResult.t :=
  OnResolveResult.Make p true None.
Definition BrowserStub (id : string) : OnResolveResult.t :=
  OnResolveResult.Make id false (Some "browser-external").
Definition Concrete (p : string) : OnResolveResult.t :=
  OnResolveResult.Make p false None.
Definition DepEntry (flatId : string) : OnResolveResult.t :=
  OnResolveResult.Make flatId false (Some "dep").

(** A result is a plain, non-external path when it carries neither the
    external flag nor a namespace. *)
Definition isConcrete (r : OnResolveResult.t) : bool :=
  negb (OnResolveResult.external r) &&
  match OnResolveResult.namespace r with
  | None => true
  | Some _ => false
  end.

(** A callback externalizes a specifier when it completes with a result that
    carries the external flag. *)
Definition externalizes (t : Task (option OnResolveResult.t)) : Prop :=
  exists r, outcome t = Ok (Some r) /\ OnResolveResult.external r = true.

(** ** Export metadata of an entry

    The scanner's result for one entry: the imports it saw, the exported
    names, and whether the entry re-exports from another module. *)
Record ExportsData : Type := MkExportsData {
  imports : list string;
  exports : list string;
  hasReExports : bool
}.

(** ** The resolved configuration *)

Record ResolverOptions : Type := MkResolverOptions {
  asSrc : option bool;
  isRequire : option bool
}.

Record DepOptimizationOptions : Type := MkDepOptimizationOptions {
  exclude : option (list string)
}.

Record ResolvedConfig : Type := MkResolvedConfig {
  root : string;
  optimizeDeps : option DepOptimizationOptions;
  createResolver : ResolverOptions -> ResolveFn
}.

(** ** Collaborators imported by the plugin

    [../utils], [../constants] and [../plugins/resolve] are not part of this
    development; the plugin is stated over any implementation of them. *)
Class Utils : Type := {
  isRunningWithYarnPnp : bool;
  flattenId : string -> string;
  normalizePath : string -> string;
  isExternalUrl : string -> bool;
  moduleListContains : option (list string) -> string -> bool;
  browserExternalId : string;
  KNOWN_ASSET_TYPES : list string
}.

(** Node's [path] module, as far as the plugin calls it. *)
Module path.
Class API : Type := {
  join : string -> string -> string;
  resolve : string -> string;
  relative : string -> string -> string;
  extname : string -> string
}.
End path.

(** Node's [fs.promises], as far as the plugin calls it. *)
Module fs.
Class API : Type := {
  readFile : string -> Outcome string
}.
End fs.


(** ** The plugin *)

(** What [setup] registers with the bundler: a filter on the specifier, an
    optional namespace, and the callback. *)
Record ResolveHook : Type := MkResolveHook {
  rh_filter : RegExp.pattern;
  rh_namespace : option string;
  rh_callback : OnResolveArgs.t -> Task (option OnResolveResult.t)
}.

Record LoadHook : Type := MkLoadHook {
  lh_filter : RegExp.pattern;
  lh_namespace : option string;
  lh_callback : OnLoadArgs.t -> Outcome OnLoadResult.t
}.

Record Plugin : Type := MkPlugin {
  name : string;
  onResolve : list ResolveHook;
  onLoad : list LoadHook
}.

(** The bundler's side of a resolve event: it runs the registered callbacks
    in the order of registration, passing over those whose namespace differs
    from the event's or whose filter does not accept the specifier, until one
    returns a result; when none does, the bundler resolves the specifier
    itself. *)
Definition hookApplies (h : ResolveHook) (args : OnResolveArgs.t) : bool :=
  match rh_namespace h with
  | Some ns => String.eqb ns (OnResolveArgs.namespace args)
  | None => true
  end && RegExp.test (rh_filter h) (OnResolveArgs.path args).

Fixpoint runResolve (hooks : list ResolveHook) (args : OnResolveArgs.t)
    : Task (option OnResolveResult.t) :=
  match hooks with
  | [] => mret None
  | h :: rest =>
      if hookApplies h args then
        r ← rh_callback h args;
        match r with
        | Some result => mret (Some result)
        | None => runResolve rest args
        end
      else runResolve rest args
  end.

(** The three statements a proxy module is made of, around the relative path
    of the entry file. *)
Definition cjsStatement (relativePath : string) : string :=
  "export default require(" +:+ Str.dq +:+ relativePath +:+ Str.dq +:+ ");".

Definition defaultStatement (relativePath : string) : string :=
  "import d from " +:+ Str.dq +:+ relativePath +:+ Str.dq +:+ ";export default d;".

Definition wildcardStatement (relativePath : string) : string :=
  Str.nl +:+ "export * from " +:+ Str.dq +:+ relativePath +:+ Str.dq.

(** [exports[0] !== 'default']: with no first element the left side is
    [undefined], which differs from every string. *)
Definition firstIsNotDefault (exports : list string) : bool :=
  match exports with
  | [] => true
  | x :: _ => negb (String.eqb x "default")
  end.

Section Plugin.

Context {U : Utils} {P : path.API} {F : fs.API}.

Variable qualified : gmap string string.
Variable exportsData : gmap string ExportsData.
Variable config : ResolvedConfig.
Variable ssr : option bool.

Definition externalTypes : list string :=
  [ "css";
    "less"; "sass"; "scss"; "styl"; "stylus"; "pcss"; "postcss";
    "vue"; "svelte"; "marko"; "astro";
    "jsx"; "tsx" ] ++ KNOWN_ASSET_TYPES.

(** default resolver which prefers ESM *)
Definition _resolve : ResolveFn :=
  createResolver config (MkResolverOptions (Some false) None).

(** cjs resolver that prefers Node *)
Definition _resolveRequire : ResolveFn :=
  createResolver config (MkResolverOptions (Some false) (Some true)).

(** Calling one of the two resolvers, logged. *)
Definition callResolver (w : Which) (id : string) (importer : option Obj.value)
    (aliasOnly ssr' : option bool) : Task (option string) :=
  ([MkCall w id importer aliasOnly ssr'],
   match w with
   | Esm => _resolve id importer aliasOnly ssr'
   | Require => _resolveRequire id importer aliasOnly ssr'
   end).

Definition resolve (id importer : string) (kind : ImportKind)
    (resolveDir : option string) : Task (option string) :=
  (* map importer ids to file paths for correct resolution *)
  let mapped :=
    if Obj.has qualified importer then Obj.get qualified importer
    else Some (Obj.Text importer) in
  let _importer :=
    match resolveDir with
    | Some dir =>
        if Str.truthy dir
        then Some (Obj.Text (normalizePath (path.join dir "*")))
        else mapped
    | None => mapped
    end in
  let resolver :=
    if Str.startsWith (ImportKind_string kind) "require" then Require else Esm in
  callResolver resolver id _importer None ssr.

Definition resolveResult (id resolved : string) : OnResolveResult.t :=
  if Str.startsWith resolved browserExternalId then
    OnResolveResult.Make id false (Some "browser-external")
  else if isExternalUrl resolved then
    OnResolveResult.Make resolved true None
  else
    OnResolveResult.Make (path.resolve resolved) false None.

(** A resolved value that passes [if (resolved)]. *)
Definition found (resolved : option string) : option string :=
  match resolved with
  | Some r => if Str.truthy r then Some r else None
  | None => None
  end.

(** externalize assets and commonly known non-js file types *)
Definition externalTypesFilter : RegExp.pattern :=
  RegExp.Pattern false
    (RegExp.Seq (RegExp.chr ".")
       (RegExp.Seq (RegExp.anyOf (map RegExp.fragment externalTypes))
          (RegExp.opt (RegExp.Seq (RegExp.chr "?") (RegExp.Many RegExp.dot)))))
    true.

Definition onResolve_externalTypes (args : OnResolveArgs.t)
    : Task (option OnResolveResult.t) :=
  let id := OnResolveArgs.path args in
  resolved ← resolve id (OnResolveArgs.importer args) (OnResolveArgs.kind args) None;
  match found resolved with
  | Some r => mret (Some (OnResolveResult.Make r true None))
  | None => mret None
  end.

Definition resolveEntry (id : string) : option OnResolveResult.t :=
  let flatId := flattenId id in
  if Obj.has qualified flatId
  then Some (OnResolveResult.Make flatId false (Some "dep"))
  else None.

Definition bareFilter : RegExp.pattern :=
  RegExp.Pattern true
    (RegExp.Seq (RegExp.Class (fun c => RegExp.word c || Ascii.eqb c "@"))
                (RegExp.Class (fun c => negb (Ascii.eqb c ":"))))
    false.

(** use vite's own resolver *)
Definition resolveWithVite (args : OnResolveArgs.t)
    : Task (option OnResolveResult.t) :=
  let id := OnResolveArgs.path args in
  resolved ← resolve id (OnResolveArgs.importer args) (OnResolveArgs.kind args) None;
  match found resolved with
  | Some r => mret (Some (resolveResult id r))
  | None => mret None
  end.

Definition onResolve_bare (args : OnResolveArgs.t)
    : Task (option OnResolveResult.t) :=
  let id := OnResolveArgs.path args in
  if moduleListContains (optimizeDeps config ≫= exclude) id then
    mret (Some (OnResolveResult.Make id true None))
  else if negb (Str.truthy (OnResolveArgs.importer args)) then
    (* if this is an entry, return entry namespace resolve result *)
    match resolveEntry id with
    | Some entry => mret (Some entry)
    | None =>
        (* check if this is aliased to an entry *)
        aliased ← callResolver Esm id None (Some true) None;
        match found aliased ≫= resolveEntry with
        | Some entry => mret (Some entry)
        | None => resolveWithVite args
        end
    end
  else resolveWithVite args.

(** The entry file's path as the proxy imports it. *)
Definition relativePathOf (root' entryFile : string) : string :=
  let relativePath := normalizePath (path.relative root' entryFile) in
  if negb (Str.startsWith relativePath "./") &&
     negb (Str.startsWith relativePath "../") &&
     negb (String.eqb relativePath ".")
  then "./" +:+ relativePath
  else relativePath.

(** The proxy module's text. *)
Definition proxyContents (relativePath : string) (data : ExportsData) : string :=
  let contents := "" in
  if (length (imports data) =? 0) && (length (exports data) =? 0) then
    (* cjs *)
    contents +:+ cjsStatement relativePath
  else
    let contents :=
      if Str.mem "default" (exports data)
      then contents +:+ defaultStatement relativePath
      else contents in
    if hasReExports data ||
       (1 <? length (exports data)) ||
       firstIsNotDefault (exports data)
    then contents +:+ wildcardStatement relativePath
    else contents.

Definition loaderOf (entryFile : string) : string :=
  let ext := Str.slice 1 (path.extname entryFile) in
  if String.eqb ext "mjs" then "js" else ext.

(** For entry files the plugin constructs a proxy module itself. Reading the
    path of an id that [qualified] lacks, or destructuring the metadata of an
    id that [exportsData] lacks, throws a [TypeError]. *)
Definition onLoad_dep (args : OnLoadArgs.t) : Outcome OnLoadResult.t :=
  let root' := path.resolve (root config) in
  let id := OnLoadArgs.path args in
  match qualified !! id with
  | None => Throw (TypeError "the path argument must be of type string")
  | Some entryFile =>
      let relativePath := relativePathOf root' entryFile in
      match exportsData !! id with
      | None => Throw (TypeError "undefined is not iterable")
      | Some data =>
          Ok (OnLoadResult.Make
                (proxyContents relativePath data)
                (Some (loaderOf entryFile))
                (Some root'))
      end
  end.

(** Returning empty contents that the bundler turns into a CommonJS module
    exporting an empty object. *)
Definition onLoad_browserExternal (args : OnLoadArgs.t) : Outcome OnLoadResult.t :=
  Ok (OnLoadResult.Make "" None None).

Definition allFilter : RegExp.pattern :=
  RegExp.Pattern false (RegExp.Many RegExp.dot) false.

(** yarn 2 pnp compat *)
Definition onResolve_pnp (args : OnResolveArgs.t)
    : Task (option OnResolveResult.t) :=
  let id := OnResolveArgs.path args in
  resolved ← resolve id (OnResolveArgs.importer args) (OnResolveArgs.kind args)
               (if String.eqb (OnResolveArgs.namespace args) "dep"
                then Some (OnResolveArgs.resolveDir args) else None);
  match found resolved with
  | Some r => mret (Some (resolveResult id r))
  | None => mret None
  end.

Definition onLoad_pnp (args : OnLoadArgs.t) : Outcome OnLoadResult.t :=
  obind (fs.readFile (OnLoadArgs.path args))
        (fun bytes => Ok (OnLoadResult.Make bytes (Some "default") None)).

Definition esbuildDepPlugin : Plugin :=
  MkPlugin "vite:dep-pre-bundle"
    ([ MkResolveHook externalTypesFilter None onResolve_externalTypes;
       MkResolveHook bareFilter None onResolve_bare ] ++
     (if isRunningWithYarnPnp
      then [ MkResolveHook allFilter None onResolve_pnp ] else []))
    ([ MkLoadHook allFilter (Some "dep") onLoad_dep;
       MkLoadHook allFilter (Some "browser-external") onLoad_browserExternal ] ++
     (if isRunningWithYarnPnp
      then [ MkLoadHook allFilter None onLoad_pnp ] else [])).

End Plugin.


(** ** A sample environment

    Concrete collaborators on which the plugin can be run. *)

Module Sample.

Fixpoint replaceChar (from to : ascii) (s : string) : string :=
  match s with
  | EmptyString => EmptyString
  | String c s' => String (if Ascii.eqb c from then to else c) (replaceChar from to s')
  end.

(** Modelled from the spec: [flattenId] of [../utils], which this development
    does not have: a package specifier with path-separator characters replaced
    by a safe token, so it can serve as a single opaque key. *)
Definition flattenId (id : string) : string := replaceChar "/" "_" id.

(** Modelled from the spec: [normalizePath] of [../utils], which this
    development does not have: paths embedded in synthesized source are
    portable, so separators are forward slashes and the empty path is the
    current directory. *)
Definition normalizePath (p : string) : string :=
  if String.eqb p "" then "." else replaceChar "\" "/" p.

(** Modelled from the spec: [isExternalUrl] of [../utils], which this
    development does not have: the result is a fully-qualified external URL. *)
Definition isExternalUrl (url : string) : bool :=
  Str.startsWith url "http://" || Str.startsWith url "https://" ||
  Str.startsWith url "//".

(** Modelled from the spec: [moduleListContains] of [../utils], which this
    development does not have: the specifier is checked against the
    caller-supplied exclusion list; without a list nothing is excluded. *)
Definition moduleListContains (moduleList : option (list string)) (id : string) : bool :=
  match moduleList with
  | Some l => Str.mem id l
  | None => false
  end.

(** Modelled from the spec: [browserExternalId] of [../plugins/resolve], which
    this development does not have: the reserved browser-external marker. *)
Definition browserExternalId : string := "__vite-browser-external".

(** Modelled from the spec: [KNOWN_ASSET_TYPES] of [../constants], which this
    development does not have: a configurable set of known asset extensions. *)
Definition KNOWN_ASSET_TYPES : list string :=
  [ "png"; "jpe?g"; "gif"; "svg"; "ico"; "webp"; "woff2?"; "ttf"; "wasm" ].

#[local] Instance utils : Utils :=
  Build_Utils false flattenId normalizePath isExternalUrl moduleListContains
    browserExternalId KNOWN_ASSET_TYPES.

(** [rest] when [s] is [p] followed by [rest]. *)
Fixpoint stripPrefix (p s : string) : option string :=
  match p, s with
  | EmptyString, _ => Some s
  | String a p', String b s' => if Ascii.eqb a b then stripPrefix p' s' else None
  | String _ _, EmptyString => None
  end.

(** The text from the last dot of the last path segment on. *)
Fixpoint extnameFrom (acc : string) (s : string) : string :=
  match s with
  | EmptyString => acc
  | String "/" s' => extnameFrom "" s'
  | String "." s' => extnameFrom (String "." s') s'
  | String _ s' => extnameFrom acc s'
  end.

(** Node's POSIX [path], for absolute paths and a working directory [/]:
    [relative] is exact when [to] is [from] or lies below it. *)
#[local] Instance posix : path.API := {|
  path.join := fun a b => a +:+ "/" +:+ b;
  path.resolve := fun p => if Str.startsWith p "/" then p else "/" +:+ p;
  path.relative := fun from to =>
    if String.eqb from to then ""
    else default to (stripPrefix (from +:+ "/") to);
  path.extname := extnameFrom ""
|}.

#[local] Instance noFiles : fs.API := {|
  fs.readFile := fun _ => Throw (Rejected "ENOENT")
|}.

(** A resolver over a table of known specifiers; everything else is not
    found. *)
Definition tableResolver (table : list (string * string)) : ResolveFn :=
  fun id _ _ _ =>
    Ok (snd <$> List.find (fun kv => String.eqb (fst kv) id) table).

Definition config (exclude' : option (list string)) (table : list (string * string))
    : ResolvedConfig :=
  MkResolvedConfig "/app" (Some (MkDepOptimizationOptions exclude'))
    (fun _ => tableResolver table).

Definition resolveArgs (id importer : string) : OnResolveArgs.t :=
  OnResolveArgs.Make id importer "file" "/app" ImportStatement.

Definition loadArgs (id ns : string) : OnLoadArgs.t :=
  OnLoadArgs.Make id ns.

Definition qualified : gmap string string :=
  {[ "foo_bar" := "/app/node_modules/foo/bar.mjs";
     "side" := "/app/node_modules/side/index.js";
     "orphan" := "/app/node_modules/orphan/index.js";
     "here" := "/app" ]}.

Definition exportsData : gmap string ExportsData :=
  {[ "foo_bar" := MkExportsData ["./dep"] ["default"; "foo"] false;
     "side" := MkExportsData ["./effects"] [] false;
     "here" := MkExportsData [] [] false ]}.

End Sample.

(** A registry with a one-letter entry and an entry named like a style
    sheet. *)
Module SampleEntries.

Definition qualified : gmap string string :=
  {[ "q" := "/app/node_modules/q/q.js";
     "normalize.css" := "/app/node_modules/normalize.css/normalize.css";
     "vue" := "/app/node_modules/vue/dist/vue.runtime.esm-bundler.js" ]}.

Definition exportsData : gmap string ExportsData :=
  {[ "q" := MkExportsData [] [] false;
     "vue" := MkExportsData ["@vue/runtime-dom"] ["createApp"] true ]}.

End SampleEntries.

(** An entry whose only exported name is [default]. *)
Module SampleDefaultOnly.

Definition qualified : gmap string string :=
  {[ "only" := "/app/node_modules/only/index.js" ]}.

Definition exportsData : gmap string ExportsData :=
  {[ "only" := MkExportsData ["./impl"] ["default"] false ]}.

End SampleDefaultOnly.


(** * Properties *)

(** ** Facts about strings *)

Module StrFacts.

Lemma app_cons c a b : String c a +:+ b = String c (a +:+ b).
Proof. reflexivity. Qed.

Lemma app_nil_l a : "" +:+ a = a.
Proof. reflexivity. Qed.

Lemma app_assoc a b c : (a +:+ b) +:+ c = a +:+ b +:+ c.
Proof.
  induction a as [|x a IH]; [reflexivity|].
  rewrite !app_cons. now rewrite IH.
Qed.

Lemma length_app a b :
  String.length (a +:+ b) = String.length a + String.length b.
Proof.
  induction a as [|x a IH]; [reflexivity|].
  rewrite app_cons. cbn [String.length]. now rewrite IH.
Qed.

(** Reading past a prefix reads the rest. *)
Lemma get_app_skip a b k :
  String.get (String.length a + k) (a +:+ b) = String.get k b.
Proof.
  induction a as [|x a IH]; [reflexivity|].
  rewrite app_cons. cbn [String.length Nat.add String.get]. exact IH.
Qed.

Lemma prefix_app p s : String.prefix p (p +:+ s) = true.
Proof.
  induction p as [|x p IH].
  - now destruct s.
  - rewrite app_cons. cbn [String.prefix].
    destruct (ascii_dec x x) as [_|Hne]; [exact IH | now destruct Hne].
Qed.

Lemma prefix_split p s :
  String.prefix p s = true -> exists post, s = p +:+ post.
Proof.
  revert s. induction p as [|x p IH]; intros s H.
  - now exists s.
  - destruct s as [|y s]; [discriminate|].
    cbn [String.prefix] in H.
    destruct (ascii_dec x y) as [->|]; [|discriminate].
    destruct (IH _ H) as [post ->]. now exists post.
Qed.

Lemma includes_intro pre p post : Str.includes (pre +:+ p +:+ post) p = true.
Proof.
  induction pre as [|x pre IH].
  - rewrite app_nil_l.
    destruct (p +:+ post) eqn:E; cbn [Str.includes];
      rewrite <- E, prefix_app; reflexivity.
  - rewrite app_cons. cbn [Str.includes]. rewrite IH. apply orb_true_r.
Qed.

Lemma includes_split s p :
  Str.includes s p = true -> exists pre post, s = pre +:+ p +:+ post.
Proof.
  induction s as [|x s IH]; cbn [Str.includes]; intros H.
  - rewrite orb_false_r in H. destruct (prefix_split _ _ H) as [post ->].
    now exists "", post.
  - apply orb_true_iff in H as [H|H].
    + destruct (prefix_split _ _ H) as [post ->]. now exists "", post.
    + destruct (IH H) as (pre & post & ->). now exists (String x pre), post.
Qed.

(** A text only includes what is no longer than itself. *)
Lemma includes_length s p :
  Str.includes s p = true -> String.length p <= String.length s.
Proof.
  intros H. destruct (includes_split _ _ H) as (pre & post & ->).
  rewrite !length_app. lia.
Qed.

Lemma mem_In x xs : Str.mem x xs = true <-> In x xs.
Proof.
  unfold Str.mem. rewrite existsb_exists. split.
  - intros (y & Hy & E). apply String.eqb_eq in E. now subst.
  - intros H. exists x. split; [exact H | apply String.eqb_refl].
Qed.

End StrFacts.


(** ** The statements of a proxy module *)

Module ProxyFacts.

Lemma length_cjs rel :
  String.length (cjsStatement rel) = 27 + String.length rel.
Proof.
  unfold cjsStatement. rewrite !StrFacts.length_app. cbn [String.length Str.dq]. lia.
Qed.

Lemma length_default rel :
  String.length (defaultStatement rel) = 34 + String.length rel.
Proof.
  unfold defaultStatement. rewrite !StrFacts.length_app. cbn [String.length Str.dq]. lia.
Qed.

Lemma length_wildcard rel :
  String.length (wildcardStatement rel) = 17 + String.length rel.
Proof.
  unfold wildcardStatement. rewrite !StrFacts.length_app.
  cbn [String.length Str.dq Str.nl]. lia.
Qed.









Lemma firstIsNotDefault_head exports :
  firstIsNotDefault exports = true <-> head exports <> Some "default".
Proof.
  destruct exports as [|x xs]; cbn.
  - split; [discriminate | reflexivity].
  - rewrite negb_true_iff, String.eqb_neq. split.
    + intros Hne [= ->]. now apply Hne.
    + intros Hne ->. now apply Hne.
Qed.

(** The condition under which the wildcard re-export is written. *)
Lemma wildcardWanted_spec data :
  hasReExports data || (1 <? length (exports data)) ||
    firstIsNotDefault (exports data) = true <->
  hasReExports data = true \/ 1 < length (exports data) \/
  head (exports data) <> Some "default".
Proof.
  rewrite !orb_true_iff, Nat.ltb_lt, firstIsNotDefault_head. tauto.
Qed.

Lemma isCjs_spec data :
  (length (imports data) =? 0) && (length (exports data) =? 0) = true <->
  imports data = [] /\ exports data = [].
Proof.
  rewrite andb_true_iff, !Nat.eqb_eq.
  destruct (imports data), (exports data); cbn; split; intros [? ?];
    (discriminate || auto).
Qed.

Lemma proxyContents_cjs rel data :
  imports data = [] -> exports data = [] ->
  proxyContents rel data = cjsStatement rel.
Proof.
  intros Hi He. unfold proxyContents. now rewrite Hi, He.
Qed.

(** Outside the CommonJS case the text is the default re-export, if wanted,
    followed by the wildcard re-export, if wanted. *)
Lemma proxyContents_esm rel data :
  imports data <> [] \/ exports data <> [] ->
  proxyContents rel data =
    match Str.mem "default" (exports data),
          hasReExports data || (1 <? length (exports data)) ||
            firstIsNotDefault (exports data) with
    | true, true => defaultStatement rel +:+ wildcardStatement rel
    | true, false => defaultStatement rel
    | false, true => wildcardStatement rel
    | false, false => ""
    end.
Proof.
  intros Hne. unfold proxyContents.
  destruct ((length (imports data) =? 0) && (length (exports data) =? 0)) eqn:C.
  - apply isCjs_spec in C as [? ?]. tauto.
  - destruct (Str.mem _ _), (hasReExports data || _ || _); reflexivity.
Qed.



End ProxyFacts.


(** ** Filters *)

Module RegExpFacts.

Lemma matches_Void s : RegExp.matches RegExp.Void s = false.
Proof. induction s as [|c s IH]; [reflexivity | exact IH]. Qed.

Lemma matches_Or s : forall a b,
  RegExp.matches (RegExp.Or a b) s = RegExp.matches a s || RegExp.matches b s.
Proof.
  induction s as [|c s IH]; intros a b; [reflexivity|].
  cbn [RegExp.matches RegExp.deriv].
  generalize (RegExp.deriv c a) (RegExp.deriv c b). intros x y.
  destruct x; cbn [RegExp.or]; rewrite ?matches_Void; try reflexivity;
    destruct y; rewrite ?matches_Void, ?orb_false_r; try reflexivity; apply IH.
Qed.

Lemma matches_or a b s :
  RegExp.matches (RegExp.or a b) s = RegExp.matches a s || RegExp.matches b s.
Proof.
  destruct a; cbn [RegExp.or]; rewrite ?matches_Void; try reflexivity;
    destruct b; rewrite ?matches_Void, ?orb_false_r; try reflexivity;
    apply matches_Or.
Qed.

(** A pattern that is not tied to the start and may match the empty word
    accepts every specifier. *)
Lemma unanchored_nullable r s :
  RegExp.nullable r = true ->
  RegExp.matches (RegExp.Seq (RegExp.Many RegExp.any) r) s = true.
Proof.
  intros Hr. induction s as [|c s IH].
  - cbn. now rewrite Hr.
  - cbn [RegExp.matches RegExp.deriv RegExp.nullable RegExp.any].
    cbn [RegExp.seq].
    rewrite matches_or.
    destruct r; try discriminate Hr; now rewrite IH.
Qed.

(** [/.*/] accepts every path. *)
Lemma allFilter_total s : RegExp.test allFilter s = true.
Proof. apply unanchored_nullable. reflexivity. Qed.

End RegExpFacts.


(** ** Load events *)

Section LoadProperties.

Context {U : Utils} {P : path.API} {F : fs.API}.

Variable qualified : gmap string string.
Variable exportsData : gmap string ExportsData.
Variable config : ResolvedConfig.

(** With both tables defined at the id the load completes, and its text is
    the proxy around the relative path of the entry file. *)
Lemma onLoad_dep_Ok args entryFile data :
  qualified !! OnLoadArgs.path args = Some entryFile ->
  exportsData !! OnLoadArgs.path args = Some data ->
  onLoad_dep qualified exportsData config args =
  Ok (OnLoadResult.Make
        (proxyContents (relativePathOf (path.resolve (root config)) entryFile) data)
        (Some (loaderOf entryFile))
        (Some (path.resolve (root config)))).
Proof.
  intros Hq He. unfold onLoad_dep. now rewrite Hq, He.
Qed.




(** C7: for an entry whose metadata has no import and no exported name, the
    text is the one statement that requires the whole module and exports it
    as the default export. *)
Theorem onLoad_dep_cjs args entryFile data :
  qualified !! OnLoadArgs.path args = Some entryFile ->
  exportsData !! OnLoadArgs.path args = Some data ->
  imports data = [] ->
  exports data = [] ->
  exists r,
    onLoad_dep qualified exportsData config args = Ok r /\
    OnLoadResult.contents r =
      "export default require(" +:+ Str.dq +:+
        relativePathOf (path.resolve (root config)) entryFile +:+
        Str.dq +:+ ");".
Proof.
  intros Hq He Hi Hx. eexists. split; [apply (onLoad_dep_Ok _ _ _ Hq He)|].
  cbn [OnLoadResult.contents]. now rewrite ProxyFacts.proxyContents_cjs.
Qed.


(** C8: a load whose id has no entry in the export metadata does not
    complete: it throws, and no text is returned. *)
Theorem onLoad_dep_missing_metadata args :
  exportsData !! OnLoadArgs.path args = None ->
  exists msg, onLoad_dep qualified exportsData config args = Throw (TypeError msg).
Proof.
  intros He. unfold onLoad_dep.
  destruct (qualified !! OnLoadArgs.path args); rewrite ?He; eauto.
Qed.

(** C9: every callback the plugin registers for the [browser-external]
    namespace accepts every path and returns the empty text for it. *)
Theorem onLoad_browserExternal_empty ssr h args :
  In h (onLoad (esbuildDepPlugin qualified exportsData config ssr)) ->
  lh_namespace h = Some "browser-external" ->
  RegExp.test (lh_filter h) (OnLoadArgs.path args) = true /\
  exists r, lh_callback h args = Ok r /\ OnLoadResult.contents r = "".
Proof.
  intros Hin Hns. cbn [onLoad esbuildDepPlugin] in Hin.
  apply in_app_or in Hin as [Hin|Hin].
  - destruct Hin as [<-|[<-|[]]]; [discriminate Hns|].
    split; [apply RegExpFacts.allFilter_total|].
    eexists. split; reflexivity.
  - destruct isRunningWithYarnPnp; [|destruct Hin].
    destruct Hin as [<-|[]]. discriminate Hns.
Qed.

End LoadProperties.


(** ** Resolve events *)

Section ResolveProperties.

Context {U : Utils} {P : path.API} {F : fs.API}.

Variable qualified : gmap string string.
Variable config : ResolvedConfig.
Variable ssr : option bool.

(** [resolve] is one logged call of one of the two resolvers. *)
Lemma resolve_calls_once id importer kind resolveDir :
  exists c, calls (resolve qualified config ssr id importer kind resolveDir) = [c] /\
            call_id c = id /\ call_aliasOnly c = None /\ call_ssr c = ssr.
Proof. eexists. split; [reflexivity|]. repeat split. Qed.

(** C1: for a specifier that passes the externalization filter, the callback
    returns an external result carrying the resolver's path when the resolver
    finds a non-empty one, returns nothing when the resolver finds none, and
    passes a rejection on; whatever it returns is never a plain path. *)
Theorem onResolve_externalTypes_external_or_nothing args :
  RegExp.test externalTypesFilter (OnResolveArgs.path args) = true ->
  let t := onResolve_externalTypes qualified config ssr args in
  let looked :=
    outcome (resolve qualified config ssr (OnResolveArgs.path args)
               (OnResolveArgs.importer args) (OnResolveArgs.kind args) None) in
  (forall r, looked = Ok (Some r) -> r <> "" ->
     outcome t = Ok (Some (External r))) /\
  (looked = Ok None \/ looked = Ok (Some "") -> outcome t = Ok None) /\
  (forall e, looked = Throw e -> outcome t = Throw e) /\
  (forall r, outcome t = Ok (Some r) -> isConcrete r = false).
Proof.
  intros _. unfold onResolve_externalTypes, mbind, Task_bind, bind.
  destruct (resolve _ _ _ _ _ _ _) as [log [resolved|e]]; cbn [outcome snd].
  2:{ split; [|split; [|split]].
      - discriminate.
      - intros [H|H]; discriminate H.
      - now intros ? [= ->].
      - discriminate. }
  destruct resolved as [r|]; cbn [found].
  2:{ cbn. split; [|split; [|split]]; try discriminate. reflexivity. }
  unfold Str.truthy. destruct (String.eqb_spec r "") as [->|Hne]; cbn.
  - split; [|split; [|split]].
    + intros r' [= <-] Hr'. now destruct Hr'.
    + reflexivity.
    + discriminate.
    + discriminate.
  - split; [|split; [|split]].
    + now intros r' [= <-] _.
    + intros [H|[= ->]]; [discriminate H | now destruct Hne].
    + discriminate.
    + now intros r' [= <-].
Qed.

(** With no importer, the bare-specifier callback answers a specifier the
    exclusion check lets through and whose flattened form is a key of the
    registry, without any call of the resolver, in the [dep] namespace with
    the flattened id as its path. *)
Lemma onResolve_bare_entry args entryFile :
  qualified !! flattenId (OnResolveArgs.path args) = Some entryFile ->
  moduleListContains (optimizeDeps config ≫= exclude) (OnResolveArgs.path args) = false ->
  OnResolveArgs.importer args = "" ->
  exists r,
    onResolve_bare qualified config ssr args = ([], Ok (Some r)) /\
    OnResolveResult.namespace r = Some "dep" /\
    OnResolveResult.path r = flattenId (OnResolveArgs.path args) /\
    OnResolveResult.external r = false.
Proof.
  intros Hq Hex Himp. unfold onResolve_bare. rewrite Hex, Himp.
  cbn [Str.truthy String.eqb negb]. unfold resolveEntry, Obj.has. rewrite Hq.
  eexists. split; [reflexivity|]. repeat split.
Qed.

(** C4: the three outcomes of classifying a resolved string, in order: the
    browser-external marker gives the stub with the specifier as its path;
    otherwise an external URL gives an external result with the URL;
    otherwise the result carries the resolved absolute path. A result has
    exactly one of the three shapes. *)
Theorem resolveResult_classification id resolved :
  let r := resolveResult id resolved in
  (if Str.startsWith resolved browserExternalId then r = BrowserStub id
   else if isExternalUrl resolved then r = External resolved
   else r = Concrete (path.resolve resolved)) /\
  ((OnResolveResult.namespace r = Some "browser-external" /\
    OnResolveResult.external r = false /\ isConcrete r = false) \/
   (OnResolveResult.namespace r = None /\
    OnResolveResult.external r = true /\ isConcrete r = false) \/
   (OnResolveResult.namespace r = None /\
    OnResolveResult.external r = false /\ isConcrete r = true)).
Proof.
  unfold resolveResult.
  destruct (Str.startsWith resolved browserExternalId); [|destruct (isExternalUrl resolved)];
    cbn; split; auto 10.
Qed.

(** Every non-empty answer of the resolver is classified this way. *)
Lemma resolveWithVite_classifies args resolved :
  outcome (resolve qualified config ssr (OnResolveArgs.path args)
             (OnResolveArgs.importer args) (OnResolveArgs.kind args) None)
    = Ok (Some resolved) ->
  resolved <> "" ->
  outcome (resolveWithVite qualified config ssr args) =
    Ok (Some (resolveResult (OnResolveArgs.path args) resolved)).
Proof.
  intros H Hne. unfold resolveWithVite, mbind, Task_bind, bind.
  destruct (resolve _ _ _ _ _ _ _) as [log o]. cbn [outcome snd] in H. subst o.
  cbn [found]. apply String.eqb_neq in Hne. unfold Str.truthy. now rewrite Hne.
Qed.

(** C5: a specifier that is in the exclusion list is answered at once with
    an external result carrying the specifier, and the resolver is not
    called. The list check is the one of [moduleListContains], which holds of
    every member of the list. *)
Theorem onResolve_bare_excluded args excluded :
  (forall l x, In x l -> moduleListContains (Some l) x = true) ->
  optimizeDeps config ≫= exclude = Some excluded ->
  In (OnResolveArgs.path args) excluded ->
  onResolve_bare qualified config ssr args =
    ([], Ok (Some (External (OnResolveArgs.path args)))).
Proof.
  intros Hmem Hcfg Hin. unfold onResolve_bare.
  now rewrite Hcfg, (Hmem _ _ Hin).
Qed.

End ResolveProperties.


(** ** The matcher against the words of an expression *)

Module RegExpLang.

Import RegExp.

Lemma app_eq_nil (a b : string) : a +:+ b = "" -> a = "" /\ b = "".
Proof.
  destruct a as [|c a].
  - rewrite StrFacts.app_nil_l. now intros ->.
  - rewrite StrFacts.app_cons. discriminate.
Qed.

Lemma app_nil_r (a : string) : a +:+ "" = a.
Proof.
  induction a as [|c a IH]; [reflexivity|]. rewrite StrFacts.app_cons. now rewrite IH.
Qed.

Lemma Void_inv s : ~ lang Void s.
Proof. intros H. inversion H. Qed.

Lemma Eps_inv s : lang Eps s -> s = "".
Proof. intros H. now inversion H. Qed.

Lemma Class_inv f s : lang (Class f) s -> exists c, s = String c "" /\ f c = true.
Proof. intros H. inversion H; subst. eauto. Qed.

Lemma Seq_inv r1 r2 s :
  lang (Seq r1 r2) s -> exists s1 s2, s = s1 +:+ s2 /\ lang r1 s1 /\ lang r2 s2.
Proof. intros H. inversion H; subst. eauto. Qed.

Lemma Or_inv r1 r2 s : lang (Or r1 r2) s -> lang r1 s \/ lang r2 s.
Proof. intros H. inversion H; subst; auto. Qed.

Lemma nullable_lang r : nullable r = true <-> lang r "".
Proof.
  induction r as [| |f|r1 IH1 r2 IH2|r1 IH1 r2 IH2|r IH]; cbn [nullable].
  - split; [discriminate | intros H; destruct (Void_inv _ H)].
  - split; [constructor | reflexivity].
  - split; [discriminate|]. intros H. apply Class_inv in H as (c & E & _). discriminate E.
  - rewrite andb_true_iff, IH1, IH2. split.
    + intros [H1 H2]. exact (lang_Seq _ _ "" "" H1 H2).
    + intros H. apply Seq_inv in H as (s1 & s2 & E & H1 & H2).
      symmetry in E. apply app_eq_nil in E as [-> ->]. now split.
  - rewrite orb_true_iff, IH1, IH2. split.
    + intros [H|H]; [now apply lang_OrL | now apply lang_OrR].
    + apply Or_inv.
  - split; [constructor | reflexivity].
Qed.

Lemma lang_seq a b s : lang (seq a b) s <-> lang (Seq a b) s.
Proof.
  assert (HV1 : forall b', lang Void s <-> lang (Seq Void b') s).
  { intros b'. split; intros H; [destruct (Void_inv _ H)|].
    apply Seq_inv in H as (? & ? & _ & H & _). destruct (Void_inv _ H). }
  assert (HV2 : forall a', lang Void s <-> lang (Seq a' Void) s).
  { intros a'. split; intros H; [destruct (Void_inv _ H)|].
    apply Seq_inv in H as (? & ? & _ & _ & H). destruct (Void_inv _ H). }
  assert (HE : forall b', lang b' s <-> lang (Seq Eps b') s).
  { intros b'. split; intros H.
    - exact (lang_Seq Eps b' "" s lang_Eps H).
    - apply Seq_inv in H as (s1 & s2 & -> & H1 & H2).
      apply Eps_inv in H1 as ->. exact H2. }
  destruct a; cbn [seq]; try apply HV1;
    destruct b; cbn [seq]; try apply HV2; try apply HE; reflexivity.
Qed.

Lemma lang_or a b s : lang (or a b) s <-> lang a s \/ lang b s.
Proof.
  assert (HV : forall r, lang r s <-> lang Void s \/ lang r s).
  { intros r. split; [auto|]. intros [H|H]; [destruct (Void_inv _ H) | exact H]. }
  assert (HV' : forall r, lang r s <-> lang r s \/ lang Void s).
  { intros r. split; [auto|]. intros [H|H]; [exact H | destruct (Void_inv _ H)]. }
  assert (HO : forall x y, lang (Or x y) s <-> lang x s \/ lang y s).
  { intros x y. split; [apply Or_inv|].
    intros [H|H]; [now apply lang_OrL | now apply lang_OrR]. }
  destruct a; cbn [or]; try apply HV;
    destruct b; cbn [or]; try apply HV'; apply HO.
Qed.

(** A non-empty word of a repetition starts with a non-empty word of the
    repeated expression. *)
Lemma Many_cons_inv r c s :
  lang (Many r) (String c s) ->
  exists s1 s2, s = s1 +:+ s2 /\ lang r (String c s1) /\ lang (Many r) s2.
Proof.
  intros H. remember (Many r) as m eqn:Em. remember (String c s) as w eqn:Ew.
  revert s Ew.
  induction H as [| | | | | |r' s1 s2 H1 _ H2 IH2]; intros t Ew; try discriminate.
  injection Em as ->.
  destruct s1 as [|c1 s1].
  - apply (IH2 eq_refl). exact Ew.
  - rewrite StrFacts.app_cons in Ew. injection Ew as -> <-.
    exists s1, s2. auto.
Qed.

Lemma deriv_lang r : forall c s, lang (deriv c r) s <-> lang r (String c s).
Proof.
  induction r as [| |f|r1 IH1 r2 IH2|r1 IH1 r2 IH2|r IH]; intros c s; cbn [deriv].
  - split; intros H; destruct (Void_inv _ H).
  - split; intros H; [destruct (Void_inv _ H) | apply Eps_inv in H; discriminate H].
  - split.
    + destruct (f c) eqn:E; intros H; [|destruct (Void_inv _ H)].
      apply Eps_inv in H as ->. now constructor.
    + intros H. apply Class_inv in H as (c' & [= -> ->] & E). rewrite E. constructor.
  - assert (Hcons : lang (seq (deriv c r1) r2) s \/
                    (lang r1 "" /\ lang (deriv c r2) s) <->
                    lang (Seq r1 r2) (String c s)).
    { rewrite lang_seq. split.
      - intros [H|[H1 H2]].
        + apply Seq_inv in H as (s1 & s2 & -> & H1 & H2).
          apply IH1 in H1. exact (lang_Seq _ _ _ _ H1 H2).
        + apply IH2 in H2. exact (lang_Seq _ _ "" _ H1 H2).
      - intros H. apply Seq_inv in H as (s1 & s2 & E & H1 & H2).
        destruct s1 as [|c1 s1].
        + right. rewrite StrFacts.app_nil_l in E. subst s2.
          split; [exact H1 | now apply IH2].
        + left. rewrite StrFacts.app_cons in E. injection E as <- ->.
          apply IH1 in H1. exact (lang_Seq _ _ _ _ H1 H2). }
    destruct (nullable r1) eqn:N.
    + rewrite lang_or, <- Hcons. apply nullable_lang in N. tauto.
    + rewrite <- Hcons. split; [auto|]. intros [H|[H _]]; [exact H|].
      apply nullable_lang in H. congruence.
  - rewrite lang_or, IH1, IH2. split.
    + intros [H|H]; [now apply lang_OrL | now apply lang_OrR].
    + apply Or_inv.
  - rewrite lang_seq. split.
    + intros H. apply Seq_inv in H as (s1 & s2 & -> & H1 & H2).
      apply IH in H1. exact (lang_ManyCons _ _ _ H1 H2).
    + intros H. apply Many_cons_inv in H as (s1 & s2 & -> & H1 & H2).
      apply IH in H1. exact (lang_Seq _ _ _ _ H1 H2).
Qed.

(** The matcher accepts exactly the words of the expression. *)
Lemma matches_lang s : forall r, matches r s = true <-> lang r s.
Proof.
  induction s as [|c s IH]; intros r; cbn [matches].
  - apply nullable_lang.
  - rewrite IH. apply deriv_lang.
Qed.

Lemma lang_Many_any s : lang (Many any) s.
Proof.
  induction s as [|c s IH]; [constructor|].
  apply (lang_ManyCons any (String c "") s); [now constructor | exact IH].
Qed.

Lemma lang_anyOf r rs s : In r rs -> lang r s -> lang (anyOf rs) s.
Proof.
  induction rs as [|x rs IH]; [intros []|].
  intros [<-|Hin] H; cbn [anyOf fold_right].
  - now apply lang_OrL.
  - apply lang_OrR. now apply IH.
Qed.

Lemma lang_chr c : lang (chr c) (String c "").
Proof. constructor. apply Ascii.eqb_refl. Qed.

(** [test] splits the specifier into what comes before the match, the
    match, and what comes after it. *)
Lemma test_lang p s :
  test p s = true <->
  exists before found after,
    s = before +:+ found +:+ after /\
    lang (body p) found /\
    (atStart p = true -> before = "") /\
    (atEnd p = true -> after = "").
Proof.
  unfold test. rewrite matches_lang. split.
  - intros H. apply Seq_inv in H as (s1 & s23 & -> & H1 & H).
    apply Seq_inv in H as (s2 & s3 & -> & H2 & H3).
    exists s1, s2, s3. split; [reflexivity|]. split; [exact H2|]. split.
    + intros E. rewrite E in H1. now apply Eps_inv in H1.
    + intros E. rewrite E in H3. now apply Eps_inv in H3.
  - intros (s1 & s2 & s3 & -> & H2 & Hs & He).
    apply lang_Seq; [|apply lang_Seq; [exact H2|]].
    + destruct (atStart p); [rewrite Hs by reflexivity; constructor | apply lang_Many_any].
    + destruct (atEnd p); [rewrite He by reflexivity; constructor | apply lang_Many_any].
Qed.

End RegExpLang.


(** ** What the filters let through *)

Section FilterProperties.

Context {U : Utils}.

Lemma list_ascii_app (a b : string) :
  list_ascii_of_string (a +:+ b) = list_ascii_of_string a ++ list_ascii_of_string b.
Proof.
  induction a as [|c a IH]; [reflexivity|].
  rewrite StrFacts.app_cons. cbn [list_ascii_of_string]. now rewrite IH.
Qed.

(** X1: when the entries of [KNOWN_ASSET_TYPES] are plain (word characters,
    each followed by at most one [?]), a specifier that ends in a dot and an
    extension accepted by one of the entries of [externalTypes], with or
    without a query string that has no line terminator (LF, CR, U+2028,
    U+2029), passes the externalization filter, whatever precedes the dot. *)
Theorem externalTypesFilter_accepts t ext before query :
  forallb RegExp.plain KNOWN_ASSET_TYPES = true ->
  In t externalTypes ->
  RegExp.matches (RegExp.fragment t) ext = true ->
  query = "" \/
    (exists q, query = "?" +:+ q /\
               RegExp.matches (RegExp.Many RegExp.dot) q = true) ->
  RegExp.test externalTypesFilter (before +:+ "." +:+ ext +:+ query) = true.
Proof.
  intros _ Hin Hext Hq. apply RegExpLang.test_lang.
  exists before, ("." +:+ ext +:+ query), "".
  split; [now rewrite RegExpLang.app_nil_r|].
  split; [|split; [discriminate | reflexivity]].
  cbn [RegExp.body externalTypesFilter].
  apply (RegExp.lang_Seq _ _ "." (ext +:+ query) (RegExpLang.lang_chr ".")).
  apply RegExp.lang_Seq.
  - apply (RegExpLang.lang_anyOf (RegExp.fragment t)).
    + now apply in_map.
    + now apply RegExpLang.matches_lang.
  - destruct Hq as [->|(q & -> & Hdot)].
    + apply RegExp.lang_OrL. constructor.
    + apply RegExp.lang_OrR.
      apply (RegExp.lang_Seq _ _ "?" q (RegExpLang.lang_chr "?")).
      now apply RegExpLang.matches_lang.
Qed.

(** X2: when the entries of [KNOWN_ASSET_TYPES] are plain, each of the
    fourteen types the plugin lists itself passes the filter as the
    extension of any specifier, alone or followed by a query string without
    a line terminator (LF, CR, U+2028, U+2029). *)
Theorem externalTypesFilter_listed ext before :
  forallb RegExp.plain KNOWN_ASSET_TYPES = true ->
  In ext [ "css"; "less"; "sass"; "scss"; "styl"; "stylus"; "pcss"; "postcss";
           "vue"; "svelte"; "marko"; "astro"; "jsx"; "tsx" ] ->
  RegExp.test externalTypesFilter (before +:+ "." +:+ ext) = true /\
  forall q, RegExp.matches (RegExp.Many RegExp.dot) q = true ->
    RegExp.test externalTypesFilter (before +:+ "." +:+ ext +:+ "?" +:+ q) = true.
Proof.
  intros Hplain Hin.
  assert (Ht : In ext externalTypes) by (apply in_or_app; now left).
  assert (Hm : RegExp.matches (RegExp.fragment ext) ext = true).
  { repeat (destruct Hin as [<-|Hin]; [reflexivity|]). destruct Hin. }
  split.
  - rewrite <- (RegExpLang.app_nil_r ext) at 1.
    apply (externalTypesFilter_accepts ext ext before "" Hplain Ht Hm). now left.
  - intros q Hq.
    apply (externalTypesFilter_accepts ext ext before ("?" +:+ q) Hplain Ht Hm).
    right. now exists q.
Qed.

(** X3: when the entries of [KNOWN_ASSET_TYPES] are plain, a specifier
    without any dot does not pass the externalization filter. *)
Theorem externalTypesFilter_needs_dot s :
  forallb RegExp.plain KNOWN_ASSET_TYPES = true ->
  ~ In "."%char (list_ascii_of_string s) ->
  RegExp.test externalTypesFilter s = false.
Proof.
  intros _ Hno. destruct (RegExp.test externalTypesFilter s) eqn:T; [|reflexivity].
  exfalso. apply Hno.
  apply RegExpLang.test_lang in T as (b & f & a & -> & Hl & _ & _).
  cbn [RegExp.body externalTypesFilter] in Hl.
  apply RegExpLang.Seq_inv in Hl as (s1 & s2 & -> & H1 & _).
  apply RegExpLang.Class_inv in H1 as (c & -> & Hc).
  apply Ascii.eqb_eq in Hc. subst c.
  rewrite !list_ascii_app. apply in_or_app. right.
  apply in_or_app. left. apply in_or_app. left. now left.
Qed.

(** X4: the second filter passes exactly the specifiers of at least two
    characters whose first is a word character or [@] and whose second is
    not a colon. *)
Theorem bareFilter_spec s :
  RegExp.test bareFilter s = true <->
  exists c1 c2 rest,
    s = String c1 (String c2 rest) /\
    (RegExp.word c1 = true \/ c1 = "@"%char) /\
    c2 <> ":"%char.
Proof.
  rewrite RegExpLang.test_lang. cbn [RegExp.body RegExp.atStart RegExp.atEnd bareFilter].
  split.
  - intros (b & f & a & -> & Hl & Hb & _). rewrite (Hb eq_refl).
    apply RegExpLang.Seq_inv in Hl as (s1 & s2 & -> & H1 & H2).
    apply RegExpLang.Class_inv in H1 as (c1 & -> & Hc1).
    apply RegExpLang.Class_inv in H2 as (c2 & -> & Hc2).
    exists c1, c2, a. split; [reflexivity|]. split.
    + apply orb_true_iff in Hc1 as [H|H]; [now left|].
      right. now apply Ascii.eqb_eq.
    + apply negb_true_iff, Ascii.eqb_neq in Hc2. exact Hc2.
  - intros (c1 & c2 & rest & -> & Hc1 & Hc2).
    exists "", (String c1 "" +:+ String c2 ""), rest.
    split; [reflexivity|]. split; [|split; [reflexivity | discriminate]].
    apply RegExp.lang_Seq; constructor.
    + apply orb_true_iff. destruct Hc1 as [H | ->]; [now left|]. now right.
    + apply negb_true_iff, Ascii.eqb_neq. exact Hc2.
Qed.

(** X5: relative specifiers, absolute paths, specifiers with a colon in
    second place (a drive letter, a one-letter scheme) and specifiers of a
    single character do not reach the bare-specifier callback. *)
Theorem bareFilter_rejects_paths rest c :
  RegExp.test bareFilter (String "." rest) = false /\
  RegExp.test bareFilter (String "/" rest) = false /\
  RegExp.test bareFilter (String c (String ":" rest)) = false /\
  RegExp.test bareFilter (String c "") = false /\
  RegExp.test bareFilter "" = false.
Proof.
  assert (Hno : forall s, ~ RegExp.test bareFilter s = true ->
                          RegExp.test bareFilter s = false).
  { intros s H. now destruct (RegExp.test bareFilter s). }
  repeat split; apply Hno; rewrite bareFilter_spec;
    intros (c1 & c2 & r & E & Hc1 & Hc2); try discriminate E.
  - inversion E; subst. destruct Hc1 as [H|H]; discriminate H.
  - inversion E; subst. destruct Hc1 as [H|H]; discriminate H.
  - inversion E; subst. now apply Hc2.
Qed.

End FilterProperties.


(** ** More on resolve events *)

Section ResolveCalls.

Context {U : Utils} {P : path.API}.

Variable qualified : gmap string string.
Variable config : ResolvedConfig.
Variable ssr : option bool.

Lemma truthy_nonempty s : s <> "" -> Str.truthy s = true.
Proof. intros H. unfold Str.truthy. apply String.eqb_neq in H. now rewrite H. Qed.

(** The generic path makes the one call of [resolve]. *)
Lemma resolveWithVite_calls args :
  calls (resolveWithVite qualified config ssr args) =
  calls (resolve qualified config ssr (OnResolveArgs.path args)
           (OnResolveArgs.importer args) (OnResolveArgs.kind args) None).
Proof.
  unfold resolveWithVite, mbind, Task_bind, bind.
  destruct (resolve _ _ _ _ _ _ _) as [log [resolved|e]]; [|reflexivity].
  destruct (found resolved); cbn; apply app_nil_r.
Qed.

(** X6: for a specifier that is not excluded and comes with an importer,
    the bare-specifier callback calls the resolver exactly once: the require
    resolver for the kinds [require-call] and [require-resolve] and the
    default one otherwise, without alias-only flag and with the plugin's
    [ssr]. The importer it passes is the registered file path when the
    importer is a key of the registry, the inherited member when the
    importer is no key but one of the names a plain object inherits, and
    the importer itself otherwise. *)
Theorem onResolve_bare_one_call args :
  moduleListContains (optimizeDeps config ≫= exclude) (OnResolveArgs.path args) = false ->
  OnResolveArgs.importer args <> "" ->
  calls (onResolve_bare qualified config ssr args) =
    [ MkCall
        match OnResolveArgs.kind args with
        | RequireCall | RequireResolve => Require
        | _ => Esm
        end
        (OnResolveArgs.path args)
        match qualified !! OnResolveArgs.importer args with
        | Some file => Some (Obj.Text file)
        | None =>
            if Str.mem (OnResolveArgs.importer args) Obj.inherited
            then Some (Obj.Member (OnResolveArgs.importer args))
            else Some (Obj.Text (OnResolveArgs.importer args))
        end
        None ssr ].
Proof.
  intros Hex Himp. unfold onResolve_bare.
  rewrite Hex, (truthy_nonempty _ Himp). cbn [negb].
  rewrite resolveWithVite_calls. unfold resolve, Obj.has, Obj.get.
  destruct (qualified !! OnResolveArgs.importer args);
    [|destruct (Str.mem (OnResolveArgs.importer args) Obj.inherited)];
    destruct (OnResolveArgs.kind args); reflexivity.
Qed.

(** X7: under the same conditions the answer follows the resolver: a
    non-empty path is classified by [resolveResult], a miss or an empty path
    gives no result, so that the bundler resolves the specifier itself, and
    a rejection is passed on. *)
Theorem onResolve_bare_follows_resolver args :
  moduleListContains (optimizeDeps config ≫= exclude) (OnResolveArgs.path args) = false ->
  OnResolveArgs.importer args <> "" ->
  let t := onResolve_bare qualified config ssr args in
  let looked :=
    outcome (resolve qualified config ssr (OnResolveArgs.path args)
               (OnResolveArgs.importer args) (OnResolveArgs.kind args) None) in
  (forall r, looked = Ok (Some r) -> r <> "" ->
     outcome t = Ok (Some (resolveResult (OnResolveArgs.path args) r))) /\
  (looked = Ok None \/ looked = Ok (Some "") -> outcome t = Ok None) /\
  (forall e, looked = Throw e -> outcome t = Throw e).
Proof.
  intros Hex Himp. unfold onResolve_bare.
  rewrite Hex, (truthy_nonempty _ Himp). cbn [negb].
  unfold resolveWithVite, mbind, Task_bind, bind.
  destruct (resolve _ _ _ _ _ _ _) as [log [resolved|e]]; cbn [outcome snd].
  2:{ split; [|split].
      - discriminate.
      - intros [H|H]; discriminate H.
      - now intros ? [= ->]. }
  split; [|split].
  - intros r [= ->] Hr. cbn [found]. now rewrite (truthy_nonempty _ Hr).
  - intros [[= ->]|[= ->]]; reflexivity.
  - discriminate.
Qed.

(** X8: entries are looked up for events without importer only: with an
    importer the callback never answers in the [dep] namespace, not even
    for a specifier that is a registered entry. *)
Theorem onResolve_bare_no_dep_with_importer args r :
  OnResolveArgs.importer args <> "" ->
  outcome (onResolve_bare qualified config ssr args) = Ok (Some r) ->
  OnResolveResult.namespace r <> Some "dep".
Proof.
  intros Himp. unfold onResolve_bare.
  destruct (moduleListContains _ _).
  - cbn. intros [= <-]. discriminate.
  - rewrite (truthy_nonempty _ Himp). cbn [negb].
    unfold resolveWithVite, mbind, Task_bind, bind.
    destruct (resolve _ _ _ _ _ _ _) as [log [resolved|e]]; [|discriminate].
    destruct (found resolved) as [f|]; cbn; [|discriminate].
    intros [= <-]. unfold resolveResult.
    destruct (Str.startsWith _ _); [|destruct (isExternalUrl f)]; cbn; discriminate.
Qed.

(** X9: with no importer, a specifier that is not excluded and whose
    flattened form is not [in] the registry (neither a key nor an inherited
    name), but that the default resolver, asked for aliases only and without
    importer, maps to a non-empty specifier whose flattened form is [in]
    the registry, resolves to the [dep] namespace with that flattened id;
    the alias lookup is the only resolver call. *)
Theorem onResolve_bare_aliased_entry args aliased :
  moduleListContains (optimizeDeps config ≫= exclude) (OnResolveArgs.path args) = false ->
  OnResolveArgs.importer args = "" ->
  Obj.has qualified (flattenId (OnResolveArgs.path args)) = false ->
  _resolve config (OnResolveArgs.path args) None (Some true) None = Ok (Some aliased) ->
  aliased <> "" ->
  Obj.has qualified (flattenId aliased) = true ->
  onResolve_bare qualified config ssr args =
    ([MkCall Esm (OnResolveArgs.path args) None (Some true) None],
     Ok (Some (DepEntry (flattenId aliased)))).
Proof.
  intros Hex Himp Hq Ha Hne Hq2. unfold onResolve_bare.
  rewrite Hex, Himp. cbn [Str.truthy String.eqb negb].
  unfold resolveEntry at 1. rewrite Hq.
  unfold mbind, Task_bind, bind, callResolver. rewrite Ha.
  cbn [found]. rewrite (truthy_nonempty _ Hne). cbn [mbind option_bind].
  unfold resolveEntry. now rewrite Hq2.
Qed.

(** X10: one event costs at most two calls of the resolver, and at most one
    when it has an importer. *)
Theorem onResolve_bare_call_bound args :
  length (calls (onResolve_bare qualified config ssr args)) <= 2 /\
  (OnResolveArgs.importer args <> "" ->
   length (calls (onResolve_bare qualified config ssr args)) <= 1).
Proof.
  assert (Hv : length (calls (resolveWithVite qualified config ssr args)) = 1).
  { now rewrite resolveWithVite_calls. }
  unfold onResolve_bare.
  destruct (moduleListContains _ _); [cbn; split; intros; lia|].
  destruct (Str.truthy (OnResolveArgs.importer args)) eqn:T; cbn [negb].
  - rewrite Hv. split; intros; lia.
  - split.
    2:{ intros Himp. now rewrite (truthy_nonempty _ Himp) in T. }
    destruct (resolveEntry _ _); [cbn; lia|].
    unfold mbind at 1. unfold Task_bind, bind, callResolver.
    destruct (_resolve _ _ _ _ _) as [aliased|e]; [|cbn; lia].
    destruct (found aliased ≫= resolveEntry qualified) as [entry|].
    + cbn. lia.
    + destruct (resolveWithVite _ _ _ _) as [log o]. cbn in Hv |- *. lia.
Qed.

(** The catch-all callback makes the one call of [resolve] too. *)
Lemma onResolve_pnp_calls args :
  calls (onResolve_pnp qualified config ssr args) =
  calls (resolve qualified config ssr (OnResolveArgs.path args)
           (OnResolveArgs.importer args) (OnResolveArgs.kind args)
           (if String.eqb (OnResolveArgs.namespace args) "dep"
            then Some (OnResolveArgs.resolveDir args) else None)).
Proof.
  unfold onResolve_pnp, mbind, Task_bind, bind.
  destruct (resolve _ _ _ _ _ _ _) as [log [resolved|e]]; [|reflexivity].
  destruct (found resolved); cbn; apply app_nil_r.
Qed.

(** X11: the catch-all callback of the yarn pnp mode also calls the resolver
    once; the importer it passes is a synthetic path inside the resolve
    directory for an event of the [dep] namespace that has a non-empty
    resolve directory; for every other event it is the registered file path
    when the importer is a key of the registry, the inherited member when
    the importer is no key but an inherited name, and the importer itself
    otherwise. *)
Theorem onResolve_pnp_call args :
  calls (onResolve_pnp qualified config ssr args) =
    [ MkCall
        match OnResolveArgs.kind args with
        | RequireCall | RequireResolve => Require
        | _ => Esm
        end
        (OnResolveArgs.path args)
        (if String.eqb (OnResolveArgs.namespace args) "dep" &&
            Str.truthy (OnResolveArgs.resolveDir args)
         then Some (Obj.Text
                      (normalizePath (path.join (OnResolveArgs.resolveDir args) "*")))
         else
           match qualified !! OnResolveArgs.importer args with
           | Some file => Some (Obj.Text file)
           | None =>
               if Str.mem (OnResolveArgs.importer args) Obj.inherited
               then Some (Obj.Member (OnResolveArgs.importer args))
               else Some (Obj.Text (OnResolveArgs.importer args))
           end)
        None ssr ].
Proof.
  rewrite onResolve_pnp_calls. unfold resolve, Obj.has, Obj.get.
  destruct (String.eqb (OnResolveArgs.namespace args) "dep");
    [destruct (Str.truthy (OnResolveArgs.resolveDir args))|]; cbn [andb];
    (destruct (qualified !! OnResolveArgs.importer args);
     [|destruct (Str.mem (OnResolveArgs.importer args) Obj.inherited)]);
    destruct (OnResolveArgs.kind args); reflexivity.
Qed.

End ResolveCalls.


(** ** More on the proxy module *)

Module ProxyForms.

(** Reading inside a prefix reads the prefix. *)
Lemma get_app_keep a b n :
  n < String.length a -> String.get n (a +:+ b) = String.get n a.
Proof.
  revert n. induction a as [|c a IH]; intros n Hn; cbn [String.length] in Hn; [lia|].
  rewrite StrFacts.app_cons. destruct n as [|n]; [reflexivity|].
  cbn [String.get]. apply IH. lia.
Qed.

Lemma cjs_head_no_newline n :
  n <= 10 -> String.get n "export default require(" <> Some "010"%char.
Proof.
  intros Hn. do 11 (destruct n as [|n]; [vm_compute; discriminate|]). lia.
Qed.

Lemma cjs_lacks_default rel :
  Str.includes (cjsStatement rel) (defaultStatement rel) = false.
Proof.
  destruct (Str.includes _ _) eqn:H; [|reflexivity].
  apply StrFacts.includes_length in H.
  rewrite ProxyFacts.length_default, ProxyFacts.length_cjs in H. lia.
Qed.

(** The wildcard re-export starts on a new line; inside the CommonJS
    statement it would have to start within its first words, which have no
    line feed. *)
Lemma cjs_lacks_wildcard rel :
  Str.includes (cjsStatement rel) (wildcardStatement rel) = false.
Proof.
  destruct (Str.includes _ _) eqn:H; [|reflexivity]. exfalso.
  apply StrFacts.includes_split in H as (pre & post & E).
  assert (Hlen : String.length pre + String.length post = 10).
  { apply (f_equal String.length) in E.
    rewrite !StrFacts.length_app, ProxyFacts.length_cjs, ProxyFacts.length_wildcard in E.
    lia. }
  apply (f_equal (String.get (String.length pre + 0))) in E.
  rewrite StrFacts.get_app_skip in E.
  unfold cjsStatement in E. rewrite Nat.add_0_r in E.
  rewrite get_app_keep in E by (cbn [String.length]; lia).
  apply (cjs_head_no_newline (String.length pre)); [lia | exact E].
Qed.

(** The text is one of four: the CommonJS statement, the default re-export,
    the wildcard re-export, or the default one followed by the wildcard
    one. *)
Lemma proxyContents_forms rel data :
  proxyContents rel data = cjsStatement rel \/
  proxyContents rel data = defaultStatement rel \/
  proxyContents rel data = wildcardStatement rel \/
  proxyContents rel data = defaultStatement rel +:+ wildcardStatement rel.
Proof.
  destruct (ProxyFacts.isCjs_spec data) as [Hc _].
  destruct ((length (imports data) =? 0) && (length (exports data) =? 0)) eqn:C.
  - destruct (Hc eq_refl) as [Hi Hx]. left. now apply ProxyFacts.proxyContents_cjs.
  - assert (Hne : imports data <> [] \/ exports data <> []).
    { destruct (imports data) eqn:Ei; [|left; discriminate].
      destruct (exports data) eqn:Ex; [|right; discriminate].
      discriminate C. }
    rewrite (ProxyFacts.proxyContents_esm _ _ Hne).
    destruct (Str.mem "default" (exports data)) eqn:M,
             (hasReExports data || _ || _) eqn:W; auto.
    exfalso. rewrite !orb_false_iff in W. destruct W as [_ W].
    destruct (exports data) as [|x xs]; [discriminate W|].
    cbn in W, M. apply negb_false_iff in W. apply String.eqb_eq in W. subst x.
    discriminate M.
Qed.

(** Each of the three statements quotes the path. *)
Lemma cjs_quotes rel :
  Str.includes (cjsStatement rel) (Str.dq +:+ rel +:+ Str.dq) = true.
Proof.
  unfold cjsStatement.
  rewrite <- (StrFacts.app_assoc Str.dq rel), <- (StrFacts.app_assoc (Str.dq +:+ rel)).
  rewrite (StrFacts.app_assoc Str.dq rel).
  apply StrFacts.includes_intro.
Qed.

Lemma default_quotes rel :
  Str.includes (defaultStatement rel) (Str.dq +:+ rel +:+ Str.dq) = true.
Proof.
  unfold defaultStatement.
  rewrite <- (StrFacts.app_assoc Str.dq rel), <- (StrFacts.app_assoc (Str.dq +:+ rel)).
  rewrite (StrFacts.app_assoc Str.dq rel).
  apply StrFacts.includes_intro.
Qed.

Lemma wildcard_quotes rel :
  Str.includes (wildcardStatement rel) (Str.dq +:+ rel +:+ Str.dq) = true.
Proof.
  unfold wildcardStatement.
  rewrite <- (StrFacts.app_assoc Str.nl), <- (RegExpLang.app_nil_r (Str.dq +:+ rel +:+ Str.dq)) at 1.
  apply StrFacts.includes_intro.
Qed.

Lemma includes_app_l s t p : Str.includes s p = true -> Str.includes (s +:+ t) p = true.
Proof.
  intros H. apply StrFacts.includes_split in H as (pre & post & ->).
  rewrite !StrFacts.app_assoc. apply StrFacts.includes_intro.
Qed.

Lemma proxyContents_quotes rel data :
  Str.includes (proxyContents rel data) (Str.dq +:+ rel +:+ Str.dq) = true.
Proof.
  destruct (proxyContents_forms rel data) as [-> | [-> | [-> | ->]]].
  - apply cjs_quotes.
  - apply default_quotes.
  - apply wildcard_quotes.
  - apply includes_app_l, default_quotes.
Qed.

End ProxyForms.

Section LoadMore.

Context {U : Utils} {P : path.API}.

Variable qualified : gmap string string.
Variable exportsData : gmap string ExportsData.
Variable config : ResolvedConfig.

(** X12: a load in the [dep] namespace completes exactly when its id is a
    key of both the registry and the export metadata. *)
Theorem onLoad_dep_completes_iff args :
  (exists r, onLoad_dep qualified exportsData config args = Ok r) <->
  is_Some (qualified !! OnLoadArgs.path args) /\
  is_Some (exportsData !! OnLoadArgs.path args).
Proof.
  unfold onLoad_dep. split.
  - intros (r & H).
    destruct (qualified !! OnLoadArgs.path args); [|discriminate H].
    destruct (exportsData !! OnLoadArgs.path args); [|discriminate H].
    split; eauto.
  - intros [[f ->] [d ->]]. eauto.
Qed.

(** X13: the text of every completed load is not empty and quotes the
    relative path of the registered entry file. *)
Theorem onLoad_dep_quotes_path args r :
  onLoad_dep qualified exportsData config args = Ok r ->
  exists entryFile,
    qualified !! OnLoadArgs.path args = Some entryFile /\
    Str.includes (OnLoadResult.contents r)
      (Str.dq +:+ relativePathOf (path.resolve (root config)) entryFile +:+ Str.dq)
      = true /\
    OnLoadResult.contents r <> "".
Proof.
  unfold onLoad_dep.
  destruct (qualified !! OnLoadArgs.path args) as [f|]; [|discriminate].
  destruct (exportsData !! OnLoadArgs.path args) as [d|]; [|discriminate].
  intros [= <-]. exists f. split; [reflexivity|]. cbn [OnLoadResult.contents].
  pose proof (ProxyForms.proxyContents_quotes
                (relativePathOf (path.resolve (root config)) f) d) as Hq.
  split; [exact Hq|].
  intros E. rewrite E in Hq. apply StrFacts.includes_length in Hq.
  rewrite !StrFacts.length_app in Hq. cbn [String.length Str.dq] in Hq. lia.
Qed.


(** X15: the text of a CommonJS entry (no import, no exported name) includes
    neither the default re-export nor the wildcard re-export. *)
Theorem onLoad_dep_cjs_lacks_reexports args entryFile data :
  qualified !! OnLoadArgs.path args = Some entryFile ->
  exportsData !! OnLoadArgs.path args = Some data ->
  imports data = [] ->
  exports data = [] ->
  exists r,
    onLoad_dep qualified exportsData config args = Ok r /\
    let rel := relativePathOf (path.resolve (root config)) entryFile in
    Str.includes (OnLoadResult.contents r) (defaultStatement rel) = false /\
    Str.includes (OnLoadResult.contents r) (wildcardStatement rel) = false.
Proof.
  intros Hq He Hi Hx. eexists. split; [apply (onLoad_dep_Ok _ _ _ _ _ _ Hq He)|].
  cbn [OnLoadResult.contents]. rewrite (ProxyFacts.proxyContents_cjs _ _ Hi Hx).
  split; [apply ProxyForms.cjs_lacks_default | apply ProxyForms.cjs_lacks_wildcard].
Qed.

(** X16: the loader of a completed load is the extension of the entry file
    without its first character, the dot, except that [mjs] becomes [js];
    a file without extension gives the empty loader; the resolve directory
    is the resolved root. *)
Theorem onLoad_dep_loader args entryFile data :
  qualified !! OnLoadArgs.path args = Some entryFile ->
  exportsData !! OnLoadArgs.path args = Some data ->
  exists r,
    onLoad_dep qualified exportsData config args = Ok r /\
    OnLoadResult.resolveDir r = Some (path.resolve (root config)) /\
    (forall c ext, path.extname entryFile = String c ext ->
       OnLoadResult.loader r = Some (if String.eqb ext "mjs" then "js" else ext)) /\
    (path.extname entryFile = "" -> OnLoadResult.loader r = Some "").
Proof.
  intros Hq He. eexists. split; [apply (onLoad_dep_Ok _ _ _ _ _ _ Hq He)|].
  cbn [OnLoadResult.resolveDir OnLoadResult.loader]. unfold loaderOf.
  split; [reflexivity|]. split.
  - intros c ext ->. reflexivity.
  - intros ->. reflexivity.
Qed.

(** X17: when [default] is among the exported names and there is another
    exported name or the re-export flag is set, the text is the default
    re-export followed, on a new line, by the wildcard re-export. *)
Theorem onLoad_dep_default_first args entryFile data :
  qualified !! OnLoadArgs.path args = Some entryFile ->
  exportsData !! OnLoadArgs.path args = Some data ->
  In "default" (exports data) ->
  1 < length (exports data) \/ hasReExports data = true ->
  exists r,
    onLoad_dep qualified exportsData config args = Ok r /\
    let rel := relativePathOf (path.resolve (root config)) entryFile in
    OnLoadResult.contents r =
      "import d from " +:+ Str.dq +:+ rel +:+ Str.dq +:+ ";export default d;" +:+
      Str.nl +:+ "export * from " +:+ Str.dq +:+ rel +:+ Str.dq.
Proof.
  intros Hq He Hd Hw. eexists. split; [apply (onLoad_dep_Ok _ _ _ _ _ _ Hq He)|].
  cbn [OnLoadResult.contents].
  assert (Hne : imports data <> [] \/ exports data <> []).
  { right. intros E. rewrite E in Hd. destruct Hd. }
  rewrite (ProxyFacts.proxyContents_esm _ _ Hne).
  apply StrFacts.mem_In in Hd. rewrite Hd.
  assert (Hc : hasReExports data || (1 <? length (exports data)) ||
               firstIsNotDefault (exports data) = true).
  { apply ProxyFacts.wildcardWanted_spec. tauto. }
  rewrite Hc. unfold defaultStatement, wildcardStatement.
  now rewrite !StrFacts.app_assoc.
Qed.

(** X18: resolving a registered, not excluded entry at the root and loading
    the answer compose: the resolve result is in the [dep] namespace, and
    the load of its path in that namespace completes with the proxy around
    the registered file of the entry, provided the entry has metadata. *)
Theorem resolve_then_load_entry ssr args entryFile data :
  moduleListContains (optimizeDeps config ≫= exclude) (OnResolveArgs.path args) = false ->
  OnResolveArgs.importer args = "" ->
  qualified !! flattenId (OnResolveArgs.path args) = Some entryFile ->
  exportsData !! flattenId (OnResolveArgs.path args) = Some data ->
  exists r l,
    outcome (onResolve_bare qualified config ssr args) = Ok (Some r) /\
    OnResolveResult.namespace r = Some "dep" /\
    onLoad_dep qualified exportsData config
      (OnLoadArgs.Make (OnResolveResult.path r) "dep") = Ok l /\
    OnLoadResult.contents l =
      proxyContents (relativePathOf (path.resolve (root config)) entryFile) data.
Proof.
  intros Hex Himp Hq He. unfold onResolve_bare. rewrite Hex, Himp.
  cbn [Str.truthy String.eqb negb]. unfold resolveEntry, Obj.has. rewrite Hq.
  eexists. eexists. split; [reflexivity|]. split; [reflexivity|].
  cbn [OnResolveResult.path]. split.
  - unfold onLoad_dep. cbn [OnLoadArgs.path]. rewrite Hq, He. reflexivity.
  - reflexivity.
Qed.

End LoadMore.


(** ** What the plugin registers *)

Section Registration.

Context {U : Utils} {P : path.API} {F : fs.API}.

Variable qualified : gmap string string.
Variable exportsData : gmap string ExportsData.
Variable config : ResolvedConfig.
Variable ssr : option bool.

(** X19: outside the yarn pnp mode every load callback of the plugin is
    bound to the [dep] or to the [browser-external] namespace, so the plugin
    never loads a module of another namespace; in that mode one more load
    callback, bound to no namespace, comes last. *)
Theorem esbuildDepPlugin_load_namespaces :
  (isRunningWithYarnPnp = false ->
   forall h, In h (onLoad (esbuildDepPlugin qualified exportsData config ssr)) ->
     lh_namespace h = Some "dep" \/ lh_namespace h = Some "browser-external") /\
  (isRunningWithYarnPnp = true ->
   exists hooks h,
     onLoad (esbuildDepPlugin qualified exportsData config ssr) = hooks ++ [h] /\
     lh_namespace h = None /\
     Forall (fun h' => lh_namespace h' <> None) hooks).
Proof.
  cbn [onLoad esbuildDepPlugin]. split; intros ->.
  - intros h [<-|[<-|[]]]; cbn; auto.
  - eexists. eexists. split; [reflexivity|]. split; [reflexivity|].
    repeat constructor; discriminate.
Qed.

End Registration.


(** ** Resolve events through the registered callbacks *)

Section Dispatch.

Context {U : Utils} {P : path.API} {F : fs.API}.

Variable qualified : gmap string string.
Variable exportsData : gmap string ExportsData.
Variable config : ResolvedConfig.
Variable ssr : option bool.

(** A callback that applies and returns a result ends the event. *)
Lemma runResolve_answered h rest args log r :
  hookApplies h args = true ->
  rh_callback h args = (log, Ok (Some r)) ->
  outcome (runResolve (h :: rest) args) = Ok (Some r).
Proof.
  intros Ha Hc. cbn [runResolve]. rewrite Ha.
  unfold mbind, Task_bind, bind. now rewrite Hc.
Qed.

(** A callback that does not apply, or that returns nothing, leaves the
    event to the callbacks after it. *)
Lemma runResolve_passed h rest args :
  hookApplies h args = false \/ outcome (rh_callback h args) = Ok None ->
  outcome (runResolve (h :: rest) args) = outcome (runResolve rest args).
Proof.
  intros H. cbn [runResolve].
  destruct (hookApplies h args); [|reflexivity].
  destruct H as [H|H]; [discriminate H|].
  unfold mbind, Task_bind, bind.
  destruct (rh_callback h args) as [log o]. cbn [outcome snd] in H. subst o.
  now destruct (runResolve rest args).
Qed.

(** C3: a resolve event with no importer whose specifier flattens to a key
    of the registry gets, from the callbacks the plugin registers, a result
    in the [dep] namespace whose path is the flattened id, provided the
    specifier passes the bare-specifier filter, the exclusion check lets it
    through, and the externalization callback does not answer first: the
    specifier fails its filter, or the callback returns nothing. *)
Theorem runResolve_entry args entryFile :
  qualified !! flattenId (OnResolveArgs.path args) = Some entryFile ->
  moduleListContains (optimizeDeps config ≫= exclude) (OnResolveArgs.path args) = false ->
  OnResolveArgs.importer args = "" ->
  RegExp.test bareFilter (OnResolveArgs.path args) = true ->
  RegExp.test externalTypesFilter (OnResolveArgs.path args) = false \/
    outcome (onResolve_externalTypes qualified config ssr args) = Ok None ->
  exists r,
    outcome (runResolve (onResolve (esbuildDepPlugin qualified exportsData config ssr))
               args) = Ok (Some r) /\
    OnResolveResult.namespace r = Some "dep" /\
    OnResolveResult.path r = flattenId (OnResolveArgs.path args) /\
    OnResolveResult.external r = false.
Proof.
  intros Hq Hex Himp Hbare Hext.
  destruct (onResolve_bare_entry qualified config ssr args entryFile Hq Hex Himp)
    as (r & E & Hns & Hpath & Hexternal).
  exists r. split; [|auto].
  cbn [onResolve esbuildDepPlugin app].
  rewrite runResolve_passed.
  - apply (runResolve_answered _ _ _ [] r); [|exact E].
    unfold hookApplies. cbn [rh_namespace rh_filter andb]. exact Hbare.
  - unfold hookApplies. cbn [rh_namespace rh_filter rh_callback andb].
    destruct Hext as [H|H]; [now left | now right].
Qed.

End Dispatch.


(** ** The properties on the sample environment *)

#[local] Existing Instances Sample.utils Sample.posix Sample.noFiles.

(** The externalization filter looks at the extension, before an optional
    query string and at the end of the specifier only. *)
Example externalTypesFilter_examples :
  map (RegExp.test externalTypesFilter)
    [ "style.css"; "./theme.scss?inline"; "App.vue"; "view.tsx"; "logo.jpeg";
      "font.woff?v=1"; "index.js"; "main.ts"; "style.css.js"; "css" ]
  = [ true; true; true; true; true; true; false; false; false; false ].
Proof. reflexivity. Qed.

(** The second filter takes bare specifiers, not relative or absolute paths
    nor URLs. *)
Example bareFilter_examples :
  map (RegExp.test bareFilter)
    [ "vue"; "@scope/pkg"; "foo/bar"; "./local"; "/abs/path"; "a:b"; "x" ]
  = [ true; true; true; false; false; false; false ].
Proof. reflexivity. Qed.

(** A found module is classified: a plain path, a browser-external stub, an
    external URL. *)
Example onResolve_bare_examples :
  map (fun id =>
         outcome (onResolve_bare Sample.qualified
                    (Sample.config None
                       [ ("vue", "/app/node_modules/vue/index.js");
                         ("fs", "__vite-browser-external:fs");
                         ("cdn", "https://cdn.example/x.js") ])
                    None (Sample.resolveArgs id "/app/src/main.js")))
    [ "vue"; "fs"; "cdn"; "missing" ]
  = [ Ok (Some (Concrete "/app/node_modules/vue/index.js"));
      Ok (Some (BrowserStub "fs"));
      Ok (Some (External "https://cdn.example/x.js"));
      Ok None ].
Proof. reflexivity. Qed.

(** A query string with the line separator U+2028 (bytes E2 80 A8) is no
    match for [.*]; other characters that start with the byte E2 are. *)
Example externalTypesFilter_line_separator :
  map (RegExp.test externalTypesFilter)
    [ "a.css?" +:+ String "226" (String "128" (String "168" ""));
      "a.css?" +:+ String "226" (String "128" (String "169" ""));
      "a.css?" +:+ String "226" (String "130" (String "172" ""));
      "a.css?x" +:+ String "010" "" ]
  = [ false; false; true; false ].
Proof. reflexivity. Qed.

(** A name that every plain object inherits is [in] the registry: as a
    specifier without importer it is answered as an entry, and as an
    importer it is replaced by the inherited member. *)
Example inherited_name_examples :
  onResolve_bare Sample.qualified (Sample.config None []) None
    (Sample.resolveArgs "constructor" "")
    = ([], Ok (Some (DepEntry "constructor"))) /\
  calls (onResolve_bare Sample.qualified (Sample.config None []) None
           (Sample.resolveArgs "vue" "toString"))
    = [ MkCall Esm "vue" (Some (Obj.Member "toString")) None None ].
Proof. split; reflexivity. Qed.

Lemma Sample_moduleListContains_member (l : list string) (x : string) :
  In x l -> Sample.moduleListContains (Some l) x = true.
Proof. intros H. now apply StrFacts.mem_In. Qed.

(** [style.css] passes the filter and the resolver knows it: the callback
    answers with the resolved path, marked external. *)
Lemma onResolve_externalTypes_witness :
  RegExp.test externalTypesFilter "style.css" = true /\
  outcome (onResolve_externalTypes Sample.qualified
             (Sample.config None [("style.css", "/app/src/style.css")]) None
             (Sample.resolveArgs "style.css" "/app/src/main.js"))
    = Ok (Some (External "/app/src/style.css")).
Proof.
  assert (Hf : RegExp.test externalTypesFilter "style.css" = true) by reflexivity.
  split; [exact Hf|].
  apply (onResolve_externalTypes_external_or_nothing Sample.qualified
           (Sample.config None [("style.css", "/app/src/style.css")]) None
           (Sample.resolveArgs "style.css" "/app/src/main.js") Hf).
  - reflexivity.
  - discriminate.
Defined.

(** [style.css] passes the filter, the resolver does not know it: the
    callback returns nothing, so the specifier is not externalized. *)
Lemma onResolve_externalTypes_unresolved :
  RegExp.test externalTypesFilter "style.css" = true /\
  outcome (onResolve_externalTypes Sample.qualified (Sample.config None []) None
             (Sample.resolveArgs "style.css" "/app/src/main.js")) = Ok None /\
  ~ externalizes
      (onResolve_externalTypes Sample.qualified (Sample.config None []) None
         (Sample.resolveArgs "style.css" "/app/src/main.js")).
Proof.
  split; [reflexivity|]. split; [reflexivity|].
  intros (r & H & _). discriminate H.
Qed.

(** [vue] is in the exclusion list. *)
Lemma onResolve_bare_excluded_witness :
  In "vue" ["react"; "vue"] /\
  onResolve_bare Sample.qualified
    (Sample.config (Some ["react"; "vue"]) [("vue", "/app/node_modules/vue/index.js")])
    None (Sample.resolveArgs "vue" "/app/src/main.js")
    = ([], Ok (Some (External "vue"))).
Proof.
  assert (Hin : In "vue" ["react"; "vue"]) by (right; left; reflexivity).
  split; [exact Hin|].
  exact (onResolve_bare_excluded Sample.qualified
           (Sample.config (Some ["react"; "vue"]) [("vue", "/app/node_modules/vue/index.js")])
           None (Sample.resolveArgs "vue" "/app/src/main.js") ["react"; "vue"]
           Sample_moduleListContains_member eq_refl Hin).
Defined.



(** The entry [here] has neither imports nor exports, and is the root. *)
Lemma onLoad_dep_cjs_witness :
  exists r,
    onLoad_dep Sample.qualified Sample.exportsData (Sample.config None [])
      (Sample.loadArgs "here" "dep") = Ok r /\
    OnLoadResult.contents r =
      "export default require(" +:+ Str.dq +:+ "." +:+ Str.dq +:+ ");".
Proof.
  exact (onLoad_dep_cjs Sample.qualified Sample.exportsData
           (Sample.config None []) (Sample.loadArgs "here" "dep")
           "/app" (MkExportsData [] [] false) eq_refl eq_refl eq_refl eq_refl).
Defined.


(** The entry [orphan] is registered and has no metadata. *)
Lemma onLoad_dep_missing_metadata_witness :
  Sample.qualified !! "orphan" = Some "/app/node_modules/orphan/index.js" /\
  exists msg,
    onLoad_dep Sample.qualified Sample.exportsData (Sample.config None [])
      (Sample.loadArgs "orphan" "dep") = Throw (TypeError msg).
Proof.
  split; [reflexivity|].
  exact (onLoad_dep_missing_metadata Sample.qualified Sample.exportsData
           (Sample.config None []) (Sample.loadArgs "orphan" "dep") eq_refl).
Defined.

Lemma onLoad_browserExternal_empty_witness :
  RegExp.test allFilter "fs" = true /\
  exists r,
    onLoad_browserExternal (Sample.loadArgs "fs" "browser-external") = Ok r /\
    OnLoadResult.contents r = "".
Proof.
  exact (onLoad_browserExternal_empty Sample.qualified Sample.exportsData
           (Sample.config None []) None
           (MkLoadHook allFilter (Some "browser-external") onLoad_browserExternal)
           (Sample.loadArgs "fs" "browser-external")
           (or_intror (or_introl eq_refl)) eq_refl).
Defined.


(** [logo.jpg?url]: the entry [jpe?g] of the known asset types accepts
    [jpg]. *)
Lemma externalTypesFilter_accepts_witness :
  RegExp.test externalTypesFilter ("logo" +:+ "." +:+ "jpg" +:+ "?url") = true.
Proof.
  assert (Hp : forallb RegExp.plain KNOWN_ASSET_TYPES = true) by reflexivity.
  assert (Hin : In "jpe?g" externalTypes) by (vm_compute; tauto).
  assert (Hm : RegExp.matches (RegExp.fragment "jpe?g") "jpg" = true) by reflexivity.
  apply (externalTypesFilter_accepts "jpe?g" "jpg" "logo" "?url" Hp Hin Hm).
  right. exists "url". split; reflexivity.
Defined.

Lemma externalTypesFilter_listed_witness :
  RegExp.test externalTypesFilter ("./theme" +:+ "." +:+ "scss") = true.
Proof.
  assert (Hin : In "scss" [ "css"; "less"; "sass"; "scss"; "styl"; "stylus";
                            "pcss"; "postcss"; "vue"; "svelte"; "marko";
                            "astro"; "jsx"; "tsx" ])
    by (vm_compute; tauto).
  assert (Hp : forallb RegExp.plain KNOWN_ASSET_TYPES = true) by reflexivity.
  exact (proj1 (externalTypesFilter_listed "scss" "./theme" Hp Hin)).
Defined.

Lemma externalTypesFilter_needs_dot_witness :
  RegExp.test externalTypesFilter "react" = false.
Proof.
  assert (Hp : forallb RegExp.plain KNOWN_ASSET_TYPES = true) by reflexivity.
  apply (externalTypesFilter_needs_dot "react" Hp).
  vm_compute. intros H.
  repeat (destruct H as [H|H]; [discriminate H|]). exact H.
Defined.

(** A [require] call from inside the entry [foo_bar]: the require resolver is
    asked, with the entry's file as importer. *)
Lemma onResolve_bare_one_call_witness :
  calls (onResolve_bare Sample.qualified (Sample.config None []) (Some true)
           (OnResolveArgs.Make "lodash" "foo_bar" "dep" "/app" RequireCall))
  = [ MkCall Require "lodash" (Some (Obj.Text "/app/node_modules/foo/bar.mjs"))
        None (Some true) ].
Proof.
  assert (Hne : OnResolveArgs.importer
                  (OnResolveArgs.Make "lodash" "foo_bar" "dep" "/app" RequireCall) <> "")
    by discriminate.
  exact (onResolve_bare_one_call Sample.qualified (Sample.config None []) (Some true)
           (OnResolveArgs.Make "lodash" "foo_bar" "dep" "/app" RequireCall)
           eq_refl Hne).
Defined.

Lemma onResolve_bare_follows_resolver_witness :
  outcome (onResolve_bare Sample.qualified
             (Sample.config None [("vue", "/app/node_modules/vue/index.js")]) None
             (Sample.resolveArgs "vue" "/app/src/main.js"))
  = Ok (Some (Concrete "/app/node_modules/vue/index.js")).
Proof.
  assert (Hne : OnResolveArgs.importer (Sample.resolveArgs "vue" "/app/src/main.js") <> "")
    by discriminate.
  pose proof (onResolve_bare_follows_resolver Sample.qualified
                (Sample.config None [("vue", "/app/node_modules/vue/index.js")]) None
                (Sample.resolveArgs "vue" "/app/src/main.js") eq_refl Hne) as H.
  destruct H as (H & _ & _).
  specialize (H "/app/node_modules/vue/index.js" eq_refl ltac:(discriminate)).
  exact H.
Defined.

(** [foo/bar] flattens to a registered entry, but is imported from a file. *)
Lemma onResolve_bare_no_dep_with_importer_witness :
  Sample.qualified !! flattenId "foo/bar" = Some "/app/node_modules/foo/bar.mjs" /\
  OnResolveResult.namespace (Concrete "/app/node_modules/foo/bar.mjs") <> Some "dep".
Proof.
  split; [reflexivity|].
  assert (Hne : OnResolveArgs.importer (Sample.resolveArgs "foo/bar" "/app/src/main.js") <> "")
    by discriminate.
  exact (onResolve_bare_no_dep_with_importer Sample.qualified
           (Sample.config None [("foo/bar", "/app/node_modules/foo/bar.mjs")]) None
           (Sample.resolveArgs "foo/bar" "/app/src/main.js")
           (Concrete "/app/node_modules/foo/bar.mjs") Hne eq_refl).
Defined.

(** [foo-alias] is an alias of [foo/bar]. *)
Lemma onResolve_bare_aliased_entry_witness :
  onResolve_bare Sample.qualified (Sample.config None [("foo-alias", "foo/bar")]) None
    (Sample.resolveArgs "foo-alias" "")
  = ([MkCall Esm "foo-alias" None (Some true) None], Ok (Some (DepEntry "foo_bar"))).
Proof.
  exact (onResolve_bare_aliased_entry Sample.qualified
           (Sample.config None [("foo-alias", "foo/bar")]) None
           (Sample.resolveArgs "foo-alias" "") "foo/bar"
           eq_refl eq_refl eq_refl eq_refl ltac:(discriminate) eq_refl).
Defined.

Lemma onLoad_dep_quotes_path_witness :
  exists entryFile,
    Sample.qualified !! "side" = Some entryFile /\
    Str.includes (wildcardStatement "./node_modules/side/index.js")
      (Str.dq +:+ relativePathOf (path.resolve "/app") entryFile +:+ Str.dq) = true /\
    wildcardStatement "./node_modules/side/index.js" <> "".
Proof.
  exact (onLoad_dep_quotes_path Sample.qualified Sample.exportsData
           (Sample.config None []) (Sample.loadArgs "side" "dep")
           (OnLoadResult.Make (wildcardStatement "./node_modules/side/index.js")
              (Some "js") (Some "/app"))
           eq_refl).
Defined.


Lemma onLoad_dep_cjs_lacks_reexports_witness :
  exists r,
    onLoad_dep Sample.qualified Sample.exportsData (Sample.config None [])
      (Sample.loadArgs "here" "dep") = Ok r /\
    Str.includes (OnLoadResult.contents r) (defaultStatement ".") = false /\
    Str.includes (OnLoadResult.contents r) (wildcardStatement ".") = false.
Proof.
  pose proof (onLoad_dep_cjs_lacks_reexports Sample.qualified Sample.exportsData
                (Sample.config None []) (Sample.loadArgs "here" "dep")
                "/app" (MkExportsData [] [] false) eq_refl eq_refl eq_refl eq_refl) as H.
  destruct H as (r & E & H).
  exists r. split; [exact E|].
  assert (Hrel : relativePathOf (path.resolve (root (Sample.config None []))) "/app" = ".")
    by (vm_compute; reflexivity).
  cbv zeta in H. rewrite Hrel in H. exact H.
Defined.

(** The entry file of [foo_bar] ends in [.mjs]. *)
Lemma onLoad_dep_loader_witness :
  exists r,
    onLoad_dep Sample.qualified Sample.exportsData (Sample.config None [])
      (Sample.loadArgs "foo_bar" "dep") = Ok r /\
    OnLoadResult.resolveDir r = Some "/app" /\
    OnLoadResult.loader r = Some "js".
Proof.
  pose proof (onLoad_dep_loader Sample.qualified Sample.exportsData
                (Sample.config None []) (Sample.loadArgs "foo_bar" "dep")
                "/app/node_modules/foo/bar.mjs"
                (MkExportsData ["./dep"] ["default"; "foo"] false) eq_refl eq_refl) as H.
  destruct H as (r & E & Hdir & Hext & _).
  exists r. split; [exact E|]. split; [exact Hdir|].
  exact (Hext "."%char "mjs" eq_refl).
Defined.

Lemma onLoad_dep_default_first_witness :
  exists r,
    onLoad_dep Sample.qualified Sample.exportsData (Sample.config None [])
      (Sample.loadArgs "foo_bar" "dep") = Ok r /\
    OnLoadResult.contents r =
      "import d from " +:+ Str.dq +:+ "./node_modules/foo/bar.mjs" +:+ Str.dq +:+
      ";export default d;" +:+ Str.nl +:+
      "export * from " +:+ Str.dq +:+ "./node_modules/foo/bar.mjs" +:+ Str.dq.
Proof.
  assert (Hd : In "default" (exports (MkExportsData ["./dep"] ["default"; "foo"] false)))
    by (left; reflexivity).
  assert (Hw : 1 < length (exports (MkExportsData ["./dep"] ["default"; "foo"] false)) \/
               hasReExports (MkExportsData ["./dep"] ["default"; "foo"] false) = true)
    by (left; cbn; lia).
  pose proof (onLoad_dep_default_first Sample.qualified Sample.exportsData
                (Sample.config None []) (Sample.loadArgs "foo_bar" "dep")
                "/app/node_modules/foo/bar.mjs"
                (MkExportsData ["./dep"] ["default"; "foo"] false)
                eq_refl eq_refl Hd Hw) as H.
  destruct H as (r & E & H).
  exists r. split; [exact E|].
  assert (Hrel : relativePathOf (path.resolve (root (Sample.config None [])))
                   "/app/node_modules/foo/bar.mjs" = "./node_modules/foo/bar.mjs")
    by (vm_compute; reflexivity).
  cbv zeta in H. rewrite Hrel in H. exact H.
Defined.

Lemma resolve_then_load_entry_witness :
  exists r l,
    outcome (onResolve_bare Sample.qualified (Sample.config None []) None
               (Sample.resolveArgs "foo/bar" "")) = Ok (Some r) /\
    OnResolveResult.namespace r = Some "dep" /\
    onLoad_dep Sample.qualified Sample.exportsData (Sample.config None [])
      (OnLoadArgs.Make (OnResolveResult.path r) "dep") = Ok l /\
    OnLoadResult.contents l =
      defaultStatement "./node_modules/foo/bar.mjs" +:+
      wildcardStatement "./node_modules/foo/bar.mjs".
Proof.
  pose proof (resolve_then_load_entry Sample.qualified Sample.exportsData
                (Sample.config None []) None (Sample.resolveArgs "foo/bar" "")
                "/app/node_modules/foo/bar.mjs"
                (MkExportsData ["./dep"] ["default"; "foo"] false)
                eq_refl eq_refl eq_refl eq_refl) as H.
  destruct H as (r & l & E1 & Hns & E2 & Hc).
  exists r, l. split; [exact E1|]. split; [exact Hns|]. split; [exact E2|].
  rewrite Hc. vm_compute. reflexivity.
Defined.


(** [vue] is registered, is a bare specifier and has none of the listed
    extensions. *)
Lemma runResolve_entry_witness :
  RegExp.test bareFilter "vue" = true /\
  RegExp.test externalTypesFilter "vue" = false /\
  exists r,
    outcome (runResolve
               (onResolve (esbuildDepPlugin SampleEntries.qualified
                             SampleEntries.exportsData (Sample.config None []) None))
               (Sample.resolveArgs "vue" "")) = Ok (Some r) /\
    OnResolveResult.namespace r = Some "dep" /\
    OnResolveResult.path r = "vue" /\
    OnResolveResult.external r = false.
Proof.
  assert (Hb : RegExp.test bareFilter "vue" = true) by reflexivity.
  assert (He : RegExp.test externalTypesFilter "vue" = false) by reflexivity.
  split; [exact Hb|]. split; [exact He|].
  exact (runResolve_entry SampleEntries.qualified SampleEntries.exportsData
           (Sample.config None []) None (Sample.resolveArgs "vue" "")
           "/app/node_modules/vue/dist/vue.runtime.esm-bundler.js"
           eq_refl eq_refl eq_refl Hb (or_introl He)).
Defined.

(** The entry ids [q] and [normalize.css] are registered and nothing is
    excluded; the events carry no importer and their specifiers flatten to
    these ids. [q] passes neither filter, so no callback runs and the event
    gets no result; [normalize.css] passes the externalization filter and
    the resolver finds it, so the first callback answers, externally. *)
Lemma runResolve_entry_without_dep :
  SampleEntries.qualified !! "q" = Some "/app/node_modules/q/q.js" /\
  flattenId "q" = "q" /\
  outcome (runResolve
             (onResolve (esbuildDepPlugin SampleEntries.qualified
                           SampleEntries.exportsData (Sample.config None []) None))
             (Sample.resolveArgs "q" "")) = Ok None /\
  SampleEntries.qualified !! "normalize.css"
    = Some "/app/node_modules/normalize.css/normalize.css" /\
  flattenId "normalize.css" = "normalize.css" /\
  outcome (runResolve
             (onResolve (esbuildDepPlugin SampleEntries.qualified
                           SampleEntries.exportsData
                           (Sample.config None
                              [("normalize.css",
                                "/app/node_modules/normalize.css/normalize.css")])
                           None))
             (Sample.resolveArgs "normalize.css" ""))
    = Ok (Some (External "/app/node_modules/normalize.css/normalize.css")).
Proof. repeat split. Qed.
